(** * MT4Wrapper: the session facade over the MT4 manager interface

    A shallow embedding of [MT4Wrapper/MT4Wrapper.cpp].  The wrapper keeps a
    process-wide session (factory, manager handle, initialised flag, last
    error text) and exposes C functions that guard, call the manager
    interface inside a try/catch boundary and serialise records into a
    caller's buffer.

    The manager interface, the socket layer and the C runtime are outside
    the wrapper: every call to them goes through an oracle, and is logged in
    a trace.  A C++ exception is an outcome of its own, caught by the
    [try_catch] combinator as the source's handlers do. *)

From Stdlib Require Import ZArith Bool List String Ascii Lia.
From Stdlib Require Import DecimalString.
From Stdlib Require DecimalPos.
From Stdlib Require Import PrimFloat FloatOps SpecFloat.
Import ListNotations.

Set Warnings "-inexact-float".

Open Scope string_scope.
Open Scope Z_scope.

(** ** Return codes (MT4Wrapper.h) *)

Definition MT4_SUCCESS : Z := 0.
Definition MT4_ERROR_NOT_INITIALIZED : Z := -1.
Definition MT4_ERROR_ALREADY_INITIALIZED : Z := -2.
Definition MT4_ERROR_CONNECTION_FAILED : Z := -3.
Definition MT4_ERROR_LOGIN_FAILED : Z := -4.
Definition MT4_ERROR_NOT_CONNECTED : Z := -5.
Definition MT4_ERROR_INVALID_PARAMETER : Z := -6.
Definition MT4_ERROR_BUFFER_TOO_SMALL : Z := -7.
Definition MT4_ERROR_INTERNAL : Z := -99.

(** ** Scalars

    [int] is a 32-bit integer kept as a [Z]; [double] is a binary64 float;
    a non-null pointer is an address, a nullable one an [option]. *)

Definition ptr : Type := positive.
Definition double : Type := float.

Definition INT_MIN : Z := - 2 ^ 31.
Definition INT_MAX : Z := 2 ^ 31 - 1.

(** The conversion [(int)d].  The fraction is discarded (truncation toward
    zero).  A value outside the range of [int], an infinity or a NaN is
    undefined in C++; the model takes what the x86 conversion instruction
    gives there, the most negative integer. *)
Definition double_to_int (d : double) : Z :=
  match Prim2SF d with
  | S754_zero _ => 0
  | S754_finite s m e =>
      let mag := match e with
                 | Z0 => Zpos m
                 | Zpos p => Z.shiftl (Zpos m) (Zpos p)
                 | Zneg p => Z.shiftr (Zpos m) (Zpos p)
                 end in
      let v := if s then - mag else mag in
      if (INT_MIN <=? v) && (v <=? INT_MAX) then v else INT_MIN
  | S754_infinity _ => INT_MIN
  | S754_nan => INT_MIN
  end.

(** [d > 0] on doubles. *)
Definition double_pos (d : double) : bool := PrimFloat.ltb 0%float d.

(** ** Text

    The double quote is written [dq], so that the JSON fragments of the
    source read the same here. *)

Definition dq : string := String (ascii_of_nat 34) EmptyString.
Definition empty : string := EmptyString.

(** A key in quotes: [q "login"] is the seven characters of ["login"]. *)
Definition q (s : string) : string := dq ++ s ++ dq.

(** [stream << int]. *)
Definition show_int (z : Z) : string := NilZero.string_of_int (Z.to_int z).

Definition len (s : string) : Z := Z.of_nat (String.length s).

(** [s.c_str() + n]: the text from offset [n] on. *)
Fixpoint string_skipn (n : nat) (s : string) : string :=
  match n, s with
  | O, _ => s
  | S n', String _ r => string_skipn n' r
  | S _, EmptyString => EmptyString
  end.

Definition is_space (c : ascii) : bool :=
  let n := nat_of_ascii c in
  (Nat.eqb n 32 || (Nat.leb 9 n && Nat.leb n 13))%bool.

Definition digit_of (c : ascii) : option Z :=
  let n := nat_of_ascii c in
  if (Nat.leb 48 n && Nat.leb n 57)%bool then Some (Z.of_nat n - 48) else None.

Fixpoint skip_spaces (s : string) : string :=
  match s with
  | String c r => if is_space c then skip_spaces r else s
  | EmptyString => s
  end.

Fixpoint digits_value (s : string) (acc : Z) : Z :=
  match s with
  | String c r =>
      match digit_of c with
      | Some d => digits_value r (acc * 10 + d)
      | None => acc
      end
  | EmptyString => acc
  end.

Definition clamp_int (z : Z) : Z :=
  if z <? INT_MIN then INT_MIN else if INT_MAX <? z then INT_MAX else z.

(** [atoi]: leading white space, an optional sign, then digits up to the
    first other character; no digits gives 0.  On overflow the Microsoft
    runtime returns the nearest bound of [int]. *)
Definition atoi (s : string) : Z :=
  match skip_spaces s with
  | String c r =>
      if Ascii.eqb c "-"%char then clamp_int (- digits_value r 0)
      else if Ascii.eqb c "+"%char then clamp_int (digits_value r 0)
      else clamp_int (digits_value (String c r) 0)
  | EmptyString => 0
  end.

(** [std::string::find(needle, pos)]: [None] is [npos]. *)
Definition find (needle : string) (pos : nat) (s : string) : option nat :=
  String.index pos needle s.

(** [std::string::substr(pos, n)]. *)
Definition substr (pos n : nat) (s : string) : string := String.substring pos n s.

(** [strncpy_s (dst, size, src, _TRUNCATE)] and [strncpy_s (dst, src, n)]
    with [n] below the size of [dst]: at most [n] characters are kept. *)
Definition truncate (n : nat) (s : string) : string := String.substring 0 n s.

(** ** Records of the manager interface

    [MT4ManagerAPI.h] is not part of the sources.  The records carry the
    fields the wrapper reads or writes; the widths of their character
    arrays and the constants of the header are parameters ([ManagerHeader]
    below). *)

Module UserRecord.
Record t : Type := mk {
    login : Z;
    group : string;
    password : string;
    enable : Z;
    enable_change_password : Z;
    name : string;
    email : string;
    leverage : Z;
    balance : double;
    credit : double }.

(** [UserRecord user = {0}] *)
Definition zero : t := mk 0 empty empty 0 0 empty empty 0 0%float 0%float.

Definition set_login (v : Z) (u : t) : t :=
  mk v (group u) (password u) (enable u) (enable_change_password u) (name u)
     (email u) (leverage u) (balance u) (credit u).
Definition set_group (v : string) (u : t) : t :=
  mk (login u) v (password u) (enable u) (enable_change_password u) (name u)
     (email u) (leverage u) (balance u) (credit u).
Definition set_password (v : string) (u : t) : t :=
  mk (login u) (group u) v (enable u) (enable_change_password u) (name u)
     (email u) (leverage u) (balance u) (credit u).
Definition set_enable (v : Z) (u : t) : t :=
  mk (login u) (group u) (password u) v (enable_change_password u) (name u)
     (email u) (leverage u) (balance u) (credit u).
Definition set_enable_change_password (v : Z) (u : t) : t :=
  mk (login u) (group u) (password u) (enable u) v (name u)
     (email u) (leverage u) (balance u) (credit u).
Definition set_name (v : string) (u : t) : t :=
  mk (login u) (group u) (password u) (enable u) (enable_change_password u) v
     (email u) (leverage u) (balance u) (credit u).
Definition set_email (v : string) (u : t) : t :=
  mk (login u) (group u) (password u) (enable u) (enable_change_password u) (name u)
     v (leverage u) (balance u) (credit u).
Definition set_leverage (v : Z) (u : t) : t :=
  mk (login u) (group u) (password u) (enable u) (enable_change_password u) (name u)
     (email u) v (balance u) (credit u).
End UserRecord.

Module TradeRecord.
Record t : Type := mk {
    order : Z;
    login : Z;
    symbol : string;
    volume : Z;
    close_price : double;
    profit : double }.

Definition zero : t := mk 0 0 empty 0 0%float 0%float.
End TradeRecord.

Module TradeTransInfo.
Record t : Type := mk {
    type : Z;
    cmd : Z;
    order : Z;
    orderby : Z;
    symbol : string;
    volume : Z;
    price : double;
    sl : double;
    tp : double;
    comment : string }.

Definition zero : t := mk 0 0 0 0 empty 0 0%float 0%float 0%float empty.
End TradeTransInfo.

Module ConSymbol.
Record t : Type := mk {
    symbol : string;
    description : string;
    currency : string;
    type : Z;
    digits : Z;
    contract_size : double }.
End ConSymbol.

Module SymbolInfo.
Record t : Type := mk {
    symbol : string;
    digits : Z;
    spread : Z;
    lasttime : Z;
    bid : double;
    ask : double }.

Definition zero : t := mk empty 0 0 0 0%float 0%float.
End SymbolInfo.

Module TickInfo.
Record t : Type := mk {
    ctm : Z;
    bid : double;
    ask : double }.
End TickInfo.

(** What the wrapper needs from [MT4ManagerAPI.h]: its constants, the sizes
    of the character arrays the wrapper copies into, and the conversions
    that storing an [int] into the [type] and [cmd] fields of a transaction
    performs. *)
Record ManagerHeader : Type := {
  RET_OK : Z;
  ManAPIVersion : Z;
  TT_ORDER_CLOSE_BY : Z;
  OP_BUY : Z;
  sizeof_user_group : nat;
  sizeof_user_password : nat;
  sizeof_user_name : nat;
  sizeof_user_email : nat;
  sizeof_trans_symbol : nat;
  sizeof_trans_comment : nat;
  to_trans_type : Z -> Z;
  to_trans_cmd : Z -> Z }.

(** [MAX_PATH] of windows.h. *)
Definition MAX_PATH : Z := 260.

(** A block of memory owned by the manager interface: its address and the
    records it holds. *)
Record block (A : Type) : Type := { addr : ptr; cells : list A }.
Arguments addr {A} _.
Arguments cells {A} _.

(** ** Calls that leave the wrapper *)

(** Methods of the manager handle ([g_pManager->...]).  An argument passed
    by pointer and written by the callee comes back in the result. *)
Inductive MgrCall : Type -> Type :=
| Release : MgrCall unit
| IsConnected : MgrCall Z
| WorkingDirectory (path : string) : MgrCall unit
| Connect (server : string) : MgrCall Z
| Login (login : Z) (password : string) : MgrCall Z
| Disconnect : MgrCall Z
| Ping : MgrCall Z
| ErrorDescription (code : Z) : MgrCall (option string)
| MemFree (p : ptr) : MgrCall unit
| UserRecordsRequest (logins : list Z) (total : Z)
    : MgrCall (option (block UserRecord.t) * Z)
| UsersRequest (total : Z) : MgrCall (option (block UserRecord.t) * Z)
| UserRecordNew (user : UserRecord.t) : MgrCall (Z * UserRecord.t)
| UserRecordGet (login : Z) (user : UserRecord.t) : MgrCall (Z * UserRecord.t)
| UserRecordUpdate (user : UserRecord.t) : MgrCall Z
| TradesUserHistory (login from to total : Z)
    : MgrCall (option (block TradeRecord.t) * Z)
| TradesRequest (total : Z) : MgrCall (option (block TradeRecord.t) * Z)
| TradeRecordGet (order : Z) (trade : TradeRecord.t) : MgrCall (Z * TradeRecord.t)
| TradeTransaction (info : TradeTransInfo.t) : MgrCall (Z * TradeTransInfo.t)
| SymbolsRefresh : MgrCall Z
| SymbolsGetAll (total : Z) : MgrCall (option (block ConSymbol.t) * Z)
| SymbolInfoUpdated (max : Z) : MgrCall (Z * list SymbolInfo.t)
| SymbolInfoGet (symbol : string) (si : SymbolInfo.t) : MgrCall (Z * SymbolInfo.t)
| TickInfoLast (symbol : string) (total : Z)
    : MgrCall (option (block TickInfo.t) * Z).

(** Every call out of the wrapper: the socket layer, the factory, the
    operating system, and the manager handle [m]. *)
Inductive Call : Type -> Type :=
| WSAStartup (version : Z) : Call Z
| WSACleanup : Call unit
| FactoryNew : Call ptr
| FactoryIsValid (f : ptr) : Call bool
| FactoryWinsockStartup (f : ptr) : Call unit
| FactoryCreate (f : ptr) (version : Z) : Call (option ptr)
| FactoryWinsockCleanup (f : ptr) : Call unit
| FactoryDelete (f : ptr) : Call unit
| GetCurrentDirectoryA (size : Z) : Call (Z * string)
| Sleep (ms : Z) : Call unit
| time_NULL : Call Z
| Mgr (m : ptr) (T : Type) (c : MgrCall T) : Call T.
Arguments Mgr m {T} c.

Inductive Event : Type :=
| Ev (T : Type) (c : Call T).
Arguments Ev {T} c.

(** A call on the manager handle: the remote capability. *)
Definition is_remote_call (e : Event) : bool :=
  match e with
  | Ev (Mgr _ _) => true
  | Ev _ => false
  end.

Definition is_MemFree (p : ptr) (e : Event) : bool :=
  match e with
  | Ev (Mgr _ (MemFree p')) => Pos.eqb p p'
  | Ev _ => false
  end.

Definition is_TradeTransaction (e : Event) : bool :=
  match e with
  | Ev (Mgr _ (TradeTransaction _)) => true
  | Ev _ => false
  end.

Definition is_Connect (e : Event) : bool :=
  match e with
  | Ev (Mgr _ (Connect _)) => true
  | Ev _ => false
  end.

(** How often [MemFree] was called on the block at [p]. *)
Definition count_MemFree (p : ptr) (tr : list Event) : nat :=
  List.length (List.filter (is_MemFree p) tr).

(** ** Outcomes *)

Inductive exn : Type :=
| std_exception (what : string)
| other_exception.

(** A computation returns, throws a C++ exception, or ends the process
    ([Fault]): the invalid-parameter handler of the secure C runtime, or a
    read outside the memory the manager handed over. *)
Inductive outcome (A : Type) : Type :=
| Done (a : A)
| Throw (e : exn)
| Fault.
Arguments Done {A} a.
Arguments Throw {A} e.
Arguments Fault {A}.

(** [strcpy_s (field, src)] into a character array of [size] bytes: the
    text and its terminator must fit, otherwise the invalid-parameter
    handler ends the process. *)
Definition strcpy_field (size : nat) (src : string) : outcome string :=
  if (String.length src <? size)%nat then Done src else Fault.

(** ** The session and the world around it *)

Record Session : Type := {
  g_pManager : option ptr;
  g_pFactory : option ptr;
  g_lastError : string;
  g_initialized : bool;
  g_bypassMode : bool;
  g_mockConnected : bool }.

Definition initial_session : Session :=
  {| g_pManager := None; g_pFactory := None; g_lastError := empty;
     g_initialized := false; g_bypassMode := false; g_mockConnected := false |}.

(** The world: the wrapper's globals, the caller's memory (the text held at
    each address), the state of everything outside, and the calls made so
    far. *)
Record World (R : Type) : Type := {
  globals : Session;
  mem : ptr -> string;
  remote : R;
  trace : list Event }.
Arguments globals {R} _.
Arguments mem {R} _.
Arguments remote {R} _.
Arguments trace {R} _.

(** The platform: the oracle that answers the calls, the header of the
    manager interface, and the two library functions on doubles the wrapper
    uses ([stream << double], and [pow] with an [int] exponent). *)
Record Platform (R : Type) : Type := {
  oracle : forall T : Type, Call T -> R -> outcome T * R;
  hdr : ManagerHeader;
  show_double : double -> string;
  c_pow : double -> Z -> double }.
Arguments oracle {R} _ {T} _ _.
Arguments hdr {R} _.
Arguments show_double {R} _ _.
Arguments c_pow {R} _ _ _.

(** ** The wrapper *)

Section Model.

Context {R : Type} (P : Platform R).

(** *** A state monad with exceptions *)

Definition M (A : Type) : Type := World R -> outcome A * World R.

Definition ret {A : Type} (a : A) : M A := fun w => (Done a, w).

Definition bind {A B : Type} (m : M A) (k : A -> M B) : M B :=
  fun w =>
    match m w with
    | (Done a, w') => k a w'
    | (Throw e, w') => (Throw e, w')
    | (Fault, w') => (Fault, w')
    end.

Notation "x <- m ;; k" := (bind m (fun x => k))
  (at level 61, m at next level, right associativity).
Notation "m ;; k" := (bind m (fun _ => k))
  (at level 61, right associativity).

(** [try { body } catch (...) { handler }]: the handler sees the world as
    the throw left it. *)
Definition try_catch {A : Type} (body : M A) (handler : exn -> M A) : M A :=
  fun w =>
    match body w with
    | (Throw e, w') => handler e w'
    | r => r
    end.

Definition lift {A : Type} (o : outcome A) : M A := fun w => (o, w).

Definition get_session : M Session := fun w => (Done (globals w), w).

Definition put_session (s : Session) : M unit :=
  fun w => (Done tt, {| globals := s; mem := mem w; remote := remote w; trace := trace w |}).

(** A call out of the wrapper: the oracle answers, the trace grows. *)
Definition call {T : Type} (c : Call T) : M T :=
  fun w =>
    let (o, r) := oracle P c (remote w) in
    (o, {| globals := globals w; mem := mem w; remote := r; trace := trace w ++ [Ev c] |}).

Definition mgr {T : Type} (m : ptr) (c : MgrCall T) : M T := call (Mgr m c).

Definition store (p : ptr) (s : string) (m : ptr -> string) : ptr -> string :=
  fun p' => if Pos.eqb p' p then s else m p'.

(** [strcpy_s (buffer, bufferSize, src)]: the text and its terminator are
    written when they fit; otherwise the buffer is set to the empty text and
    the invalid-parameter handler ends the process. *)
Definition strcpy_s (buffer : ptr) (bufferSize : Z) (src : string) : M unit :=
  fun w =>
    if len src <? bufferSize
    then (Done tt, {| globals := globals w; mem := store buffer src (mem w);
                      remote := remote w; trace := trace w |})
    else (Fault, {| globals := globals w; mem := store buffer empty (mem w);
                    remote := remote w; trace := trace w |}).

(** *** Helpers of the source *)

Definition SetError (error : option string) : M unit :=
  s <- get_session ;;
  put_session {| g_pManager := g_pManager s; g_pFactory := g_pFactory s;
                 g_lastError := match error with Some e => e | None => empty end;
                 g_initialized := g_initialized s; g_bypassMode := g_bypassMode s;
                 g_mockConnected := g_mockConnected s |}.

Definition set_pManager (m : option ptr) : M unit :=
  s <- get_session ;;
  put_session {| g_pManager := m; g_pFactory := g_pFactory s;
                 g_lastError := g_lastError s;
                 g_initialized := g_initialized s; g_bypassMode := g_bypassMode s;
                 g_mockConnected := g_mockConnected s |}.

Definition set_pFactory (f : option ptr) : M unit :=
  s <- get_session ;;
  put_session {| g_pManager := g_pManager s; g_pFactory := f;
                 g_lastError := g_lastError s;
                 g_initialized := g_initialized s; g_bypassMode := g_bypassMode s;
                 g_mockConnected := g_mockConnected s |}.

Definition set_initialized (b : bool) : M unit :=
  s <- get_session ;;
  put_session {| g_pManager := g_pManager s; g_pFactory := g_pFactory s;
                 g_lastError := g_lastError s;
                 g_initialized := b; g_bypassMode := g_bypassMode s;
                 g_mockConnected := g_mockConnected s |}.

Definition set_mockConnected (b : bool) : M unit :=
  s <- get_session ;;
  put_session {| g_pManager := g_pManager s; g_pFactory := g_pFactory s;
                 g_lastError := g_lastError s;
                 g_initialized := g_initialized s; g_bypassMode := g_bypassMode s;
                 g_mockConnected := b |}.

(** [errorDesc ? errorDesc : fallback] *)
Definition or_else (errorDesc : option string) (fallback : string) : string :=
  match errorDesc with
  | Some d => d
  | None => fallback
  end.

Definition SafeIsConnected : M bool :=
  s <- get_session ;;
  match g_initialized s, g_pManager s with
  | true, Some m =>
      try_catch
        (r <- mgr m IsConnected ;; ret (negb (r =? 0)))
        (fun _ => ret false)
  | _, _ => ret false
  end.

(** The guard every operation starts with:
    [if (!g_initialized || !g_pManager) { SetError(...); return ...; }]. *)
Definition if_initialized (body : ptr -> M Z) : M Z :=
  s <- get_session ;;
  match g_initialized s, g_pManager s with
  | true, Some m => body m
  | _, _ =>
      SetError (Some "Not initialized") ;;
      ret MT4_ERROR_NOT_INITIALIZED
  end.

(** The two handlers most operations end with. *)
Definition catch_internal (unknown : string) (e : exn) : M Z :=
  match e with
  | std_exception what => SetError (Some what) ;; ret MT4_ERROR_INTERNAL
  | other_exception => SetError (Some unknown) ;; ret MT4_ERROR_INTERNAL
  end.

(** *** Session lifecycle *)

Definition Initialize_rollback (message : string) : M Z :=
  s <- get_session ;;
  match g_pFactory s with
  | Some f => call (FactoryDelete f) ;; set_pFactory None
  | None => ret tt
  end ;;
  call WSACleanup ;;
  SetError (Some message) ;;
  ret MT4_ERROR_INTERNAL.

Definition MT4_Initialize : M Z :=
  s <- get_session ;;
  if g_initialized s then
    SetError (Some "Already initialized") ;;
    ret MT4_ERROR_ALREADY_INITIALIZED
  else
    try_catch
      (started <- call (WSAStartup 514) ;;
       if negb (started =? 0) then
         SetError (Some "Failed to initialize Winsock") ;;
         ret MT4_ERROR_INTERNAL
       else
         f <- call FactoryNew ;;
         set_pFactory (Some f) ;;
         valid <- call (FactoryIsValid f) ;;
         if negb valid then
           call (FactoryDelete f) ;;
           set_pFactory None ;;
           call WSACleanup ;;
           SetError (Some "Failed to load mtmanapi.dll") ;;
           ret MT4_ERROR_INTERNAL
         else
           call (FactoryWinsockStartup f) ;;
           m <- call (FactoryCreate f (ManAPIVersion (hdr P))) ;;
           set_pManager m ;;
           match m with
           | None =>
               call (FactoryDelete f) ;;
               set_pFactory None ;;
               call WSACleanup ;;
               SetError (Some "Failed to create manager instance") ;;
               ret MT4_ERROR_INTERNAL
           | Some _ =>
               set_initialized true ;;
               SetError (Some empty) ;;
               ret MT4_SUCCESS
           end)
      (fun e =>
         match e with
         | std_exception what => Initialize_rollback what
         | other_exception => Initialize_rollback "Unknown error during initialization"
         end).

Definition MT4_Shutdown : M unit :=
  s <- get_session ;;
  match g_pManager s with
  | Some m => mgr m Release ;; set_pManager None
  | None => ret tt
  end ;;
  s <- get_session ;;
  match g_pFactory s with
  | Some f => call (FactoryWinsockCleanup f) ;; call (FactoryDelete f) ;; set_pFactory None
  | None => ret tt
  end ;;
  set_initialized false ;;
  set_mockConnected false ;;
  SetError (Some empty) ;;
  call WSACleanup.

(** *** Connection *)

Definition MT4_Connect (server : option string) : M Z :=
  if_initialized (fun m =>
    match server with
    | None =>
        SetError (Some "Invalid server parameter") ;;
        ret MT4_ERROR_INVALID_PARAMETER
    | Some server =>
        try_catch
          (let serverCopy := truncate 255 server in
           cwd <- call (GetCurrentDirectoryA MAX_PATH) ;;
           (if 0 <? fst cwd then mgr m (WorkingDirectory (snd cwd)) else ret tt) ;;
           call (Sleep 100) ;;
           result <- mgr m (Connect serverCopy) ;;
           if result =? RET_OK (hdr P) then
             SetError (Some empty) ;;
             ret MT4_SUCCESS
           else
             errorDesc <- mgr m (ErrorDescription result) ;;
             SetError (Some (or_else errorDesc "Connection failed")) ;;
             ret MT4_ERROR_CONNECTION_FAILED)
          (catch_internal "Unknown error during connection")
    end).

Definition MT4_Login (login : Z) (password : option string) : M Z :=
  if_initialized (fun m =>
    match password with
    | None =>
        SetError (Some "Invalid password parameter") ;;
        ret MT4_ERROR_INVALID_PARAMETER
    | Some password =>
        try_catch
          (result <- mgr m (Login login password) ;;
           if result =? RET_OK (hdr P) then
             SetError (Some empty) ;;
             ret MT4_SUCCESS
           else
             errorDesc <- mgr m (ErrorDescription result) ;;
             SetError (Some (or_else errorDesc "Login failed")) ;;
             ret MT4_ERROR_LOGIN_FAILED)
          (catch_internal "Unknown error during login")
    end).

Definition MT4_Disconnect : M Z :=
  if_initialized (fun m =>
    try_catch
      (result <- mgr m Disconnect ;;
       SetError (Some empty) ;;
       ret (if result =? RET_OK (hdr P) then MT4_SUCCESS else MT4_ERROR_INTERNAL))
      (fun _ =>
         SetError (Some "Error during disconnect") ;;
         ret MT4_ERROR_INTERNAL)).

Definition MT4_IsConnected : M Z :=
  c <- SafeIsConnected ;;
  ret (if c then 1 else 0).

Definition MT4_GetLastError : M string :=
  s <- get_session ;;
  ret (g_lastError s).

Definition MT4_Ping : M Z :=
  if_initialized (fun m =>
    connected <- SafeIsConnected ;;
    if negb connected then
      SetError (Some "Not connected") ;;
      ret MT4_ERROR_NOT_CONNECTED
    else
      try_catch
        (result <- mgr m Ping ;;
         ret (if result =? RET_OK (hdr P) then MT4_SUCCESS else MT4_ERROR_INTERNAL))
        (fun _ =>
           SetError (Some "Error during ping") ;;
           ret MT4_ERROR_INTERNAL)).

(** *** Serialisation *)

(** The loop [for (i = 0; i < total && i < limit; i++)] over the records of
    a block, with [n] iterations left: a comma before every element but
    the first. *)
Fixpoint json_items {A : Type} (item : A -> string) (records : list A)
    (i n : nat) (json : string) : outcome string :=
  match n with
  | O => Done json
  | S n' =>
      match nth_error records i with
      | Some x =>
          json_items item records (S i) n'
            (json ++ (if Nat.eqb i 0 then empty else ",") ++ item x)
      | None => Fault
      end
  end.

Definition json_array {A : Type} (item : A -> string) (records : list A)
    (total limit : Z) : outcome string :=
  match json_items item records 0 (Z.to_nat (Z.min total limit)) "[" with
  | Done json => Done (json ++ "]")
  | r => r
  end.

Definition user_info_json (u : UserRecord.t) : string :=
  "{" ++ q "login" ++ ":" ++ show_int (UserRecord.login u)
  ++ "," ++ q "name" ++ ":" ++ q (UserRecord.name u)
  ++ "," ++ q "email" ++ ":" ++ q (UserRecord.email u)
  ++ "," ++ q "balance" ++ ":" ++ show_double P (UserRecord.balance u)
  ++ "," ++ q "credit" ++ ":" ++ show_double P (UserRecord.credit u)
  ++ "," ++ q "leverage" ++ ":" ++ show_int (UserRecord.leverage u)
  ++ "," ++ q "group" ++ ":" ++ q (UserRecord.group u) ++ "}".

Definition user_item_json (u : UserRecord.t) : string :=
  "{" ++ q "login" ++ ":" ++ show_int (UserRecord.login u)
  ++ "," ++ q "name" ++ ":" ++ q (UserRecord.name u)
  ++ "," ++ q "balance" ++ ":" ++ show_double P (UserRecord.balance u) ++ "}".

Definition trade_item_json (t : TradeRecord.t) : string :=
  "{" ++ q "order" ++ ":" ++ show_int (TradeRecord.order t)
  ++ "," ++ q "login" ++ ":" ++ show_int (TradeRecord.login t)
  ++ "," ++ q "symbol" ++ ":" ++ q (TradeRecord.symbol t)
  ++ "," ++ q "volume" ++ ":" ++ show_int (TradeRecord.volume t)
  ++ "," ++ q "profit" ++ ":" ++ show_double P (TradeRecord.profit t) ++ "}".

Definition symbol_item_json (c : ConSymbol.t) : string :=
  "{" ++ q "symbol" ++ ":" ++ q (ConSymbol.symbol c)
  ++ "," ++ q "description" ++ ":" ++ q (ConSymbol.description c)
  ++ "," ++ q "digits" ++ ":" ++ show_int (ConSymbol.digits c)
  ++ "," ++ q "contractSize" ++ ":" ++ show_double P (ConSymbol.contract_size c)
  ++ "," ++ q "currency" ++ ":" ++ q (ConSymbol.currency c)
  ++ "," ++ q "type" ++ ":" ++ show_int (ConSymbol.type c) ++ "}".

Definition order_json (order : Z) : string :=
  "{" ++ q "order" ++ ":" ++ show_int order ++ "}".

Definition created_json (login : Z) : string :=
  "{" ++ q "success" ++ ":true," ++ q "login" ++ ":" ++ show_int login ++ "}".

Definition quote_json (symbol : string) (bid ask : double) (spread digits time : Z)
    : string :=
  "{" ++ q "symbol" ++ ":" ++ q symbol ++ ","
  ++ q "bid" ++ ":" ++ show_double P bid ++ ","
  ++ q "ask" ++ ":" ++ show_double P ask ++ ","
  ++ q "spread" ++ ":" ++ show_int spread ++ ","
  ++ q "digits" ++ ":" ++ show_int digits ++ ","
  ++ q "time" ++ ":" ++ show_int time
  ++ "}".

(** *** User records *)

Definition MT4_GetUserInfo (login : Z) (buffer : option ptr) (bufferSize : Z) : M Z :=
  if_initialized (fun m =>
    match buffer with
    | Some buffer =>
        if bufferSize <=? 0 then
          SetError (Some "Invalid buffer parameter") ;;
          ret MT4_ERROR_INVALID_PARAMETER
        else
          try_catch
            (reply <- mgr m (UserRecordsRequest [login] 0) ;;
             let total := snd reply in
             match fst reply with
             | Some users =>
                 if 0 <? total then
                   user0 <- lift (match nth_error (cells users) 0 with
                                  | Some u => Done u
                                  | None => Fault
                                  end) ;;
                   let result := user_info_json user0 in
                   if bufferSize <=? len result then
                     mgr m (MemFree (addr users)) ;;
                     SetError (Some "Buffer too small") ;;
                     ret MT4_ERROR_BUFFER_TOO_SMALL
                   else
                     strcpy_s buffer bufferSize result ;;
                     mgr m (MemFree (addr users)) ;;
                     SetError (Some empty) ;;
                     ret MT4_SUCCESS
                 else
                   SetError (Some "User not found") ;;
                   ret MT4_ERROR_INTERNAL
             | None =>
                 SetError (Some "User not found") ;;
                 ret MT4_ERROR_INTERNAL
             end)
            (catch_internal "Unknown error")
    | None =>
        SetError (Some "Invalid buffer parameter") ;;
        ret MT4_ERROR_INVALID_PARAMETER
    end).

(** The tail shared by the three listing operations: a block with records
    is serialised, checked against the capacity and freed; anything else
    gives the empty array. *)
Definition list_records {A : Type} (m : ptr) (item : A -> string) (limit : Z)
    (reply : option (block A) * Z) (buffer : ptr) (bufferSize : Z) : M Z :=
  let total := snd reply in
  let empty_array :=
    strcpy_s buffer bufferSize "[]" ;;
    SetError (Some empty) ;;
    ret MT4_SUCCESS in
  match fst reply with
  | Some records =>
      if 0 <? total then
        result <- lift (json_array item (cells records) total limit) ;;
        if bufferSize <=? len result then
          mgr m (MemFree (addr records)) ;;
          SetError (Some "Buffer too small") ;;
          ret MT4_ERROR_BUFFER_TOO_SMALL
        else
          strcpy_s buffer bufferSize result ;;
          mgr m (MemFree (addr records)) ;;
          SetError (Some empty) ;;
          ret MT4_SUCCESS
      else empty_array
  | None => empty_array
  end.

Definition MT4_GetAllUsers (buffer : option ptr) (bufferSize : Z) : M Z :=
  if_initialized (fun m =>
    match buffer with
    | Some buffer =>
        if bufferSize <=? 0 then
          SetError (Some "Invalid buffer parameter") ;;
          ret MT4_ERROR_INVALID_PARAMETER
        else
          try_catch
            (reply <- mgr m (UsersRequest 0) ;;
             list_records m user_item_json 100 reply buffer bufferSize)
            (catch_internal "Unknown error")
    | None =>
        SetError (Some "Invalid buffer parameter") ;;
        ret MT4_ERROR_INVALID_PARAMETER
    end).

Definition MT4_GetTrades (login : Z) (buffer : option ptr) (bufferSize : Z) : M Z :=
  if_initialized (fun m =>
    match buffer with
    | Some buffer =>
        if bufferSize <=? 0 then
          SetError (Some "Invalid buffer parameter") ;;
          ret MT4_ERROR_INVALID_PARAMETER
        else
          try_catch
            (reply <- (if 0 <? login then
                         now <- call time_NULL ;;
                         mgr m (TradesUserHistory login 0 now 0)
                       else
                         mgr m (TradesRequest 0)) ;;
             list_records m trade_item_json 100 reply buffer bufferSize)
            (catch_internal "Unknown error")
    | None =>
        SetError (Some "Invalid buffer parameter") ;;
        ret MT4_ERROR_INVALID_PARAMETER
    end).

Definition MT4_GetSymbols (buffer : option ptr) (bufferSize : Z) : M Z :=
  if_initialized (fun m =>
    match buffer with
    | Some buffer =>
        if bufferSize <=? 0 then
          SetError (Some "Invalid buffer parameter") ;;
          ret MT4_ERROR_INVALID_PARAMETER
        else
          try_catch
            (mgr m SymbolsRefresh ;;
             reply <- mgr m (SymbolsGetAll 0) ;;
             list_records m symbol_item_json 50 reply buffer bufferSize)
            (catch_internal "Unknown error getting symbols")
    | None =>
        SetError (Some "Invalid buffer parameter") ;;
        ret MT4_ERROR_INVALID_PARAMETER
    end).

(** *** Trades *)

(** [(int)(volume * 100)]: lots to hundredths of a lot. *)
Definition lots_to_volume (lots : double) : Z :=
  double_to_int (PrimFloat.mul lots 100%float).

Definition MT4_OpenTrade (login : Z) (symbol : option string) (cmd : Z)
    (volume price stoploss takeprofit : double) (comment : option string)
    (buffer : option ptr) (bufferSize : Z) : M Z :=
  if_initialized (fun m =>
    match symbol, buffer with
    | Some symbol, Some buffer =>
        if bufferSize <=? 0 then
          SetError (Some "Invalid parameters") ;;
          ret MT4_ERROR_INVALID_PARAMETER
        else
          connected <- SafeIsConnected ;;
          if negb connected then
            SetError (Some "Not connected") ;;
            ret MT4_ERROR_NOT_CONNECTED
          else
            try_catch
              (trade_symbol <- lift (strcpy_field (sizeof_trans_symbol (hdr P)) symbol) ;;
               let trade :=
                 {| TradeTransInfo.type := to_trans_type (hdr P) cmd;
                    TradeTransInfo.cmd := to_trans_cmd (hdr P) cmd;
                    TradeTransInfo.order := 0;
                    TradeTransInfo.orderby := 0;
                    TradeTransInfo.symbol := trade_symbol;
                    TradeTransInfo.volume := lots_to_volume volume;
                    TradeTransInfo.price := price;
                    TradeTransInfo.sl := stoploss;
                    TradeTransInfo.tp := takeprofit;
                    TradeTransInfo.comment :=
                      match comment with
                      | Some comment =>
                          truncate (sizeof_trans_comment (hdr P) - 1) comment
                      | None => empty
                      end |} in
               reply <- mgr m (TradeTransaction trade) ;;
               let result := fst reply in
               let trade := snd reply in
               if result =? RET_OK (hdr P) then
                 let resultStr := order_json (TradeTransInfo.order trade) in
                 if bufferSize <=? len resultStr then
                   SetError (Some "Buffer too small") ;;
                   ret MT4_ERROR_BUFFER_TOO_SMALL
                 else
                   strcpy_s buffer bufferSize resultStr ;;
                   SetError (Some empty) ;;
                   ret MT4_SUCCESS
               else
                 errorDesc <- mgr m (ErrorDescription result) ;;
                 SetError (Some (or_else errorDesc "Trade transaction failed")) ;;
                 ret MT4_ERROR_INTERNAL)
              (catch_internal "Unknown error opening trade")
    | _, _ =>
        SetError (Some "Invalid parameters") ;;
        ret MT4_ERROR_INVALID_PARAMETER
    end).

Definition MT4_CloseTrade (order : Z) (lots price : double) : M Z :=
  if_initialized (fun m =>
    connected <- SafeIsConnected ;;
    if negb connected then
      SetError (Some "Not connected") ;;
      ret MT4_ERROR_NOT_CONNECTED
    else
      try_catch
        (reply <- mgr m (TradeRecordGet order TradeRecord.zero) ;;
         let result := fst reply in
         let trade := snd reply in
         if negb (result =? RET_OK (hdr P)) then
           SetError (Some "Trade not found") ;;
           ret MT4_ERROR_INTERNAL
         else
           close_symbol <- lift (strcpy_field (sizeof_trans_symbol (hdr P))
                                   (TradeRecord.symbol trade)) ;;
           let closeTrade :=
             {| TradeTransInfo.type := to_trans_type (hdr P) (TT_ORDER_CLOSE_BY (hdr P));
                TradeTransInfo.cmd := to_trans_cmd (hdr P) (OP_BUY (hdr P));
                TradeTransInfo.order := order;
                TradeTransInfo.orderby := order;
                TradeTransInfo.symbol := close_symbol;
                TradeTransInfo.volume :=
                  if double_pos lots then lots_to_volume lots
                  else TradeRecord.volume trade;
                TradeTransInfo.price :=
                  if double_pos price then price else TradeRecord.close_price trade;
                TradeTransInfo.sl := 0%float;
                TradeTransInfo.tp := 0%float;
                TradeTransInfo.comment := empty |} in
           reply <- mgr m (TradeTransaction closeTrade) ;;
           let result := fst reply in
           if result =? RET_OK (hdr P) then
             SetError (Some empty) ;;
             ret MT4_SUCCESS
           else
             errorDesc <- mgr m (ErrorDescription result) ;;
             SetError (Some (or_else errorDesc "Close trade failed")) ;;
             ret MT4_ERROR_INTERNAL)
        (catch_internal "Unknown error closing trade")).

(** *** Creating and updating users *)

(** One text field of the input: the value after the first [marker] (which
    is [offset] characters long) up to the next double quote is copied into
    a field of [size] bytes.  Without the marker, or without a closing
    quote, the field keeps its value. *)
Definition extract_text (json marker : string) (offset size : nat)
    (current : string) : outcome string :=
  match find marker 0 json with
  | Some pos =>
      match find dq (pos + offset) json with
      | Some endPos => strcpy_field size (substr (pos + offset) (endPos - pos - offset) json)
      | None => Done current
      end
  | None => Done current
  end.

Definition MT4_CreateUser (jsonData : option string) (buffer : option ptr)
    (bufferSize : Z) : M Z :=
  if_initialized (fun m =>
    match jsonData, buffer with
    | Some json, Some buffer =>
        if bufferSize <=? 0 then
          SetError (Some "Invalid parameters") ;;
          ret MT4_ERROR_INVALID_PARAMETER
        else
          connected <- SafeIsConnected ;;
          if negb connected then
            SetError (Some "Not connected") ;;
            ret MT4_ERROR_NOT_CONNECTED
          else
            try_catch
              (let user := UserRecord.zero in
               let user :=
                 match find (q "login" ++ ":") 0 json with
                 | Some pos => UserRecord.set_login (atoi (string_skipn (pos + 8) json)) user
                 | None => user
                 end in
               pwd <- lift (extract_text json (q "password" ++ ":" ++ dq) 12
                              (sizeof_user_password (hdr P)) (UserRecord.password user)) ;;
               let user := UserRecord.set_password pwd user in
               grp <- lift (extract_text json (q "group" ++ ":" ++ dq) 9
                              (sizeof_user_group (hdr P)) (UserRecord.group user)) ;;
               let user := UserRecord.set_group grp user in
               nm <- lift (extract_text json (q "name" ++ ":" ++ dq) 8
                             (sizeof_user_name (hdr P)) (UserRecord.name user)) ;;
               let user := UserRecord.set_name nm user in
               let user := UserRecord.set_enable 1 user in
               let user := UserRecord.set_enable_change_password 1 user in
               let user := UserRecord.set_leverage 100 user in
               reply <- mgr m (UserRecordNew user) ;;
               let result := fst reply in
               let user := snd reply in
               if result =? RET_OK (hdr P) then
                 let resultStr := created_json (UserRecord.login user) in
                 if bufferSize <=? len resultStr then
                   SetError (Some "Buffer too small") ;;
                   ret MT4_ERROR_BUFFER_TOO_SMALL
                 else
                   strcpy_s buffer bufferSize resultStr ;;
                   SetError (Some empty) ;;
                   ret MT4_SUCCESS
               else
                 errorDesc <- mgr m (ErrorDescription result) ;;
                 SetError (Some (or_else errorDesc "Failed to create user")) ;;
                 ret MT4_ERROR_INTERNAL)
              (catch_internal "Unknown error creating user")
    | _, _ =>
        SetError (Some "Invalid parameters") ;;
        ret MT4_ERROR_INVALID_PARAMETER
    end).

Definition MT4_UpdateUser (login : Z) (jsonData : option string) : M Z :=
  if_initialized (fun m =>
    match jsonData with
    | Some json =>
        connected <- SafeIsConnected ;;
        if negb connected then
          SetError (Some "Not connected") ;;
          ret MT4_ERROR_NOT_CONNECTED
        else
          try_catch
            (reply <- mgr m (UserRecordGet login UserRecord.zero) ;;
             let result := fst reply in
             let user := snd reply in
             if negb (result =? RET_OK (hdr P)) then
               SetError (Some "User not found") ;;
               ret MT4_ERROR_INTERNAL
             else
               nm <- lift (extract_text json (q "name" ++ ":" ++ dq) 8
                             (sizeof_user_name (hdr P)) (UserRecord.name user)) ;;
               let user := UserRecord.set_name nm user in
               em <- lift (extract_text json (q "email" ++ ":" ++ dq) 9
                             (sizeof_user_email (hdr P)) (UserRecord.email user)) ;;
               let user := UserRecord.set_email em user in
               grp <- lift (extract_text json (q "group" ++ ":" ++ dq) 9
                              (sizeof_user_group (hdr P)) (UserRecord.group user)) ;;
               let user := UserRecord.set_group grp user in
               result <- mgr m (UserRecordUpdate user) ;;
               if result =? RET_OK (hdr P) then
                 SetError (Some empty) ;;
                 ret MT4_SUCCESS
               else
                 errorDesc <- mgr m (ErrorDescription result) ;;
                 SetError (Some (or_else errorDesc "Failed to update user")) ;;
                 ret MT4_ERROR_INTERNAL)
            (catch_internal "Unknown error updating user")
    | None =>
        SetError (Some "Invalid parameters") ;;
        ret MT4_ERROR_INVALID_PARAMETER
    end).

Definition MT4_DeleteUser (login : Z) : M Z :=
  if_initialized (fun m =>
    connected <- SafeIsConnected ;;
    if negb connected then
      SetError (Some "Not connected") ;;
      ret MT4_ERROR_NOT_CONNECTED
    else
      try_catch
        (reply <- mgr m (UserRecordGet login UserRecord.zero) ;;
         let result := fst reply in
         let user := snd reply in
         if negb (result =? RET_OK (hdr P)) then
           SetError (Some "User not found") ;;
           ret MT4_ERROR_INTERNAL
         else
           let user := UserRecord.set_enable 0 user in
           result <- mgr m (UserRecordUpdate user) ;;
           if result =? RET_OK (hdr P) then
             SetError (Some empty) ;;
             ret MT4_SUCCESS
           else
             errorDesc <- mgr m (ErrorDescription result) ;;
             SetError (Some (or_else errorDesc "Failed to disable user")) ;;
             ret MT4_ERROR_INTERNAL)
        (catch_internal "Unknown error deleting user")).

(** *** Quotes *)

(** The scan of the first [updated] entries of [symbolsInfo] for the
    symbol, [n] entries left. *)
Fixpoint find_symbol (symbol : string) (symbolsInfo : list SymbolInfo.t)
    (i n : nat) : outcome (option SymbolInfo.t) :=
  match n with
  | O => Done None
  | S n' =>
      match nth_error symbolsInfo i with
      | Some si =>
          if String.eqb (SymbolInfo.symbol si) symbol then Done (Some si)
          else find_symbol symbol symbolsInfo (S i) n'
      | None => Fault
      end
  end.

(** [ticks[total - 1]] *)
Definition last_tick (ticks : block TickInfo.t) (total : Z) : outcome TickInfo.t :=
  if total - 1 <? 0 then Fault
  else match nth_error (cells ticks) (Z.to_nat (total - 1)) with
       | Some t => Done t
       | None => Fault
       end.

Definition MT4_GetQuote (symbol : option string) (buffer : option ptr)
    (bufferSize : Z) : M Z :=
  if_initialized (fun m =>
    connected <- SafeIsConnected ;;
    if negb connected then
      SetError (Some "Not connected to MT4 server") ;;
      ret MT4_ERROR_NOT_CONNECTED
    else
      match symbol, buffer with
      | Some symbol, Some buffer =>
          if bufferSize <=? 0 then
            SetError (Some "Invalid parameters") ;;
            ret MT4_ERROR_INVALID_PARAMETER
          else
            try_catch
              (reply <- mgr m (SymbolInfoUpdated 128) ;;
               let updated := fst reply in
               let symbolsInfo := snd reply in
               targetSymbol <- lift (find_symbol symbol symbolsInfo 0 (Z.to_nat updated)) ;;
               let priced :=
                 match targetSymbol with
                 | Some t =>
                     if double_pos (SymbolInfo.bid t) || double_pos (SymbolInfo.ask t)
                     then Some t else None
                 | None => None
                 end in
               match priced with
               | Some t =>
                   let result_str :=
                     quote_json symbol (SymbolInfo.bid t) (SymbolInfo.ask t)
                       (SymbolInfo.spread t) (SymbolInfo.digits t) (SymbolInfo.lasttime t) in
                   if bufferSize <=? len result_str then
                     SetError (Some "Buffer too small for quote data") ;;
                     ret MT4_ERROR_BUFFER_TOO_SMALL
                   else
                     strcpy_s buffer bufferSize result_str ;;
                     SetError (Some empty) ;;
                     ret MT4_SUCCESS
               | None =>
                   reply <- mgr m (TickInfoLast symbol 0) ;;
                   let total := snd reply in
                   let fallback :=
                     reply <- mgr m (SymbolInfoGet symbol SymbolInfo.zero) ;;
                     let result := fst reply in
                     let symbolInfo := snd reply in
                     if negb (result =? RET_OK (hdr P)) then
                       SetError (Some "No price data available for symbol") ;;
                       ret MT4_ERROR_INTERNAL
                     else
                       now <- call time_NULL ;;
                       let result_str :=
                         quote_json symbol (SymbolInfo.bid symbolInfo)
                           (SymbolInfo.ask symbolInfo) (SymbolInfo.spread symbolInfo)
                           (SymbolInfo.digits symbolInfo) now in
                       if bufferSize <=? len result_str then
                         SetError (Some "Buffer too small for quote data") ;;
                         ret MT4_ERROR_BUFFER_TOO_SMALL
                       else
                         strcpy_s buffer bufferSize result_str ;;
                         SetError (Some empty) ;;
                         ret MT4_SUCCESS in
                   match fst reply with
                   | Some ticks =>
                       if total =? 0 then fallback
                       else
                         tick <- lift (last_tick ticks total) ;;
                         reply <- mgr m (SymbolInfoGet symbol SymbolInfo.zero) ;;
                         let symbolInfo := snd reply in
                         let spread :=
                           double_to_int
                             (PrimFloat.mul
                                (PrimFloat.sub (TickInfo.ask tick) (TickInfo.bid tick))
                                (c_pow P 10%float (SymbolInfo.digits symbolInfo))) in
                         let result_str :=
                           quote_json symbol (TickInfo.bid tick) (TickInfo.ask tick)
                             spread (SymbolInfo.digits symbolInfo) (TickInfo.ctm tick) in
                         if bufferSize <=? len result_str then
                           SetError (Some "Buffer too small for quote data") ;;
                           ret MT4_ERROR_BUFFER_TOO_SMALL
                         else
                           strcpy_s buffer bufferSize result_str ;;
                           mgr m (MemFree (addr ticks)) ;;
                           SetError (Some empty) ;;
                           ret MT4_SUCCESS
                   | None => fallback
                   end
               end)
              (catch_internal "Unknown error getting quote")
      | _, _ =>
          SetError (Some "Invalid parameters") ;;
          ret MT4_ERROR_INVALID_PARAMETER
      end).

(** *** The public surface *)

Inductive ApiCall : Type :=
| Initialize
| Shutdown
| ApiConnect (server : option string)
| ApiLogin (login : Z) (password : option string)
| ApiDisconnect
| ApiIsConnected
| GetLastError
| ApiPing
| GetUserInfo (login : Z) (buffer : option ptr) (bufferSize : Z)
| GetAllUsers (buffer : option ptr) (bufferSize : Z)
| CreateUser (jsonData : option string) (buffer : option ptr) (bufferSize : Z)
| UpdateUser (login : Z) (jsonData : option string)
| DeleteUser (login : Z)
| GetTrades (login : Z) (buffer : option ptr) (bufferSize : Z)
| OpenTrade (login : Z) (symbol : option string) (cmd : Z)
    (volume price stoploss takeprofit : double) (comment : option string)
    (buffer : option ptr) (bufferSize : Z)
| CloseTrade (order : Z) (lots price : double)
| GetSymbols (buffer : option ptr) (bufferSize : Z)
| GetQuote (symbol : option string) (buffer : option ptr) (bufferSize : Z).

(** What a call hands back: a status code, nothing, or a text. *)
Inductive Reply : Type :=
| Status (code : Z)
| Void
| Text (s : string).

Definition status (m : M Z) : M Reply := code <- m ;; ret (Status code).

Definition api (c : ApiCall) : M Reply :=
  match c with
  | Initialize => status MT4_Initialize
  | Shutdown => MT4_Shutdown ;; ret Void
  | ApiConnect server => status (MT4_Connect server)
  | ApiLogin login password => status (MT4_Login login password)
  | ApiDisconnect => status MT4_Disconnect
  | ApiIsConnected => status MT4_IsConnected
  | GetLastError => s <- MT4_GetLastError ;; ret (Text s)
  | ApiPing => status MT4_Ping
  | GetUserInfo login buffer bufferSize => status (MT4_GetUserInfo login buffer bufferSize)
  | GetAllUsers buffer bufferSize => status (MT4_GetAllUsers buffer bufferSize)
  | CreateUser jsonData buffer bufferSize =>
      status (MT4_CreateUser jsonData buffer bufferSize)
  | UpdateUser login jsonData => status (MT4_UpdateUser login jsonData)
  | DeleteUser login => status (MT4_DeleteUser login)
  | GetTrades login buffer bufferSize => status (MT4_GetTrades login buffer bufferSize)
  | OpenTrade login symbol cmd volume price stoploss takeprofit comment buffer bufferSize =>
      status (MT4_OpenTrade login symbol cmd volume price stoploss takeprofit comment
                buffer bufferSize)
  | CloseTrade order lots price => status (MT4_CloseTrade order lots price)
  | GetSymbols buffer bufferSize => status (MT4_GetSymbols buffer bufferSize)
  | GetQuote symbol buffer bufferSize => status (MT4_GetQuote symbol buffer bufferSize)
  end.

(** A caller's history: the calls made one after the other, each with its
    outcome.  A call that ends the process ends the history. *)
Fixpoint run (calls : list ApiCall) (w : World R)
    : list (ApiCall * outcome Reply) * World R :=
  match calls with
  | [] => ([], w)
  | c :: rest =>
      match api c w with
      | (Fault, w') => ([(c, Fault)], w')
      | (o, w') => let (log, w'') := run rest w' in ((c, o) :: log, w'')
      end
  end.

End Model.

(** The world a process starts in. *)
Definition initial_world {R : Type} (mem0 : ptr -> string) (r : R) : World R :=
  {| globals := initial_session; mem := mem0; remote := r; trace := [] |}.

(** ** A scripted platform

    A platform to run the wrapper on: sample values for the header, and a
    manager whose answers are read off a script. *)

Definition mt4_header : ManagerHeader :=
  {| RET_OK := 0;
     ManAPIVersion := 400;
     TT_ORDER_CLOSE_BY := 73;
     OP_BUY := 0;
     sizeof_user_group := 16;
     sizeof_user_password := 16;
     sizeof_user_name := 128;
     sizeof_user_email := 48;
     sizeof_trans_symbol := 12;
     sizeof_trans_comment := 32;
     to_trans_type := fun z => z mod 256;
     to_trans_cmd := fun z => (z + 32768) mod 65536 - 32768 |}.

Record Script : Type := {
  on_IsConnected : outcome Z;
  on_Connect : Z;
  on_Disconnect : Z;
  on_Ping : Z;
  on_ErrorDescription : option string;
  on_UserRecordsRequest : option (block UserRecord.t) * Z;
  on_UsersRequest : option (block UserRecord.t) * Z;
  on_UserRecordNew : Z;
  on_TradeRecordGet : Z;
  on_TradeTransaction : Z * Z;
  on_SymbolInfoUpdated : Z * list SymbolInfo.t;
  on_SymbolInfoGet : Z;
  on_TickInfoLast : option (block TickInfo.t) * Z }.

Definition scripted_manager (s : Script) (T : Type) (c : MgrCall T) : outcome T :=
  match c in MgrCall T' return outcome T' with
  | Release => Done tt
  | IsConnected => on_IsConnected s
  | WorkingDirectory _ => Done tt
  | Connect _ => Done (on_Connect s)
  | Login _ _ => Done 0
  | Disconnect => Done (on_Disconnect s)
  | Ping => Done (on_Ping s)
  | ErrorDescription _ => Done (on_ErrorDescription s)
  | MemFree _ => Done tt
  | UserRecordsRequest _ _ => Done (on_UserRecordsRequest s)
  | UsersRequest _ => Done (on_UsersRequest s)
  | UserRecordNew user => Done (on_UserRecordNew s, user)
  | UserRecordGet _ user => Done (0, user)
  | UserRecordUpdate _ => Done 0
  | TradesUserHistory _ _ _ total => Done (None, total)
  | TradesRequest total => Done (None, total)
  | TradeRecordGet _ trade => Done (on_TradeRecordGet s, trade)
  | TradeTransaction info =>
      Done (fst (on_TradeTransaction s),
            {| TradeTransInfo.type := TradeTransInfo.type info;
               TradeTransInfo.cmd := TradeTransInfo.cmd info;
               TradeTransInfo.order := snd (on_TradeTransaction s);
               TradeTransInfo.orderby := TradeTransInfo.orderby info;
               TradeTransInfo.symbol := TradeTransInfo.symbol info;
               TradeTransInfo.volume := TradeTransInfo.volume info;
               TradeTransInfo.price := TradeTransInfo.price info;
               TradeTransInfo.sl := TradeTransInfo.sl info;
               TradeTransInfo.tp := TradeTransInfo.tp info;
               TradeTransInfo.comment := TradeTransInfo.comment info |})
  | SymbolsRefresh => Done 0
  | SymbolsGetAll total => Done (None, total)
  | SymbolInfoUpdated _ => Done (on_SymbolInfoUpdated s)
  | SymbolInfoGet _ si => Done (on_SymbolInfoGet s, si)
  | TickInfoLast _ _ => Done (on_TickInfoLast s)
  end.

Definition scripted_oracle (T : Type) (c : Call T) (s : Script) : outcome T * Script :=
  (match c in Call T' return outcome T' with
   | WSAStartup _ => Done 0
   | WSACleanup => Done tt
   | FactoryNew => Done 1%positive
   | FactoryIsValid _ => Done true
   | FactoryWinsockStartup _ => Done tt
   | FactoryCreate _ _ => Done (Some 2%positive)
   | FactoryWinsockCleanup _ => Done tt
   | FactoryDelete _ => Done tt
   | GetCurrentDirectoryA _ => Done (7, "C:\\mt4")
   | Sleep _ => Done tt
   | time_NULL => Done 1700000000
   | Mgr _ c' => scripted_manager s _ c'
   end, s).

(** A stand-in for [stream << double]: the integral part. *)
Definition integral_part (d : double) : string := show_int (double_to_int d).

(** A stand-in for [pow (base, n)]: repeated multiplication. *)
Definition power (base : double) (n : Z) : double :=
  Nat.iter (Z.to_nat n) (PrimFloat.mul base) 1%float.

Definition scripted : Platform Script :=
  {| oracle := scripted_oracle;
     hdr := mt4_header;
     show_double := integral_part;
     c_pow := power |}.

(** A connected manager with nothing to report. *)
Definition quiet : Script :=
  {| on_IsConnected := Done 1;
     on_Connect := 0;
     on_Disconnect := 0;
     on_Ping := 0;
     on_ErrorDescription := None;
     on_UserRecordsRequest := (None, 0);
     on_UsersRequest := (None, 0);
     on_UserRecordNew := 0;
     on_TradeRecordGet := 0;
     on_TradeTransaction := (0, 7);
     on_SymbolInfoUpdated := (0, []);
     on_SymbolInfoGet := 0;
     on_TickInfoLast := (None, 0) |}.

(** The caller's memory before any call: every region holds the text
    [old]. *)
Definition stale : ptr -> string := fun _ => "old".

(** The session after a successful [MT4_Initialize] on the scripted
    platform. *)
Definition ready (s : Script) : World Script :=
  snd (MT4_Initialize scripted (initial_world stale s)).

(** ** Histories and the closed session *)

(** The operations the session gates: connect, login, ping and the record
    operations. *)
Definition gated (c : ApiCall) : bool :=
  match c with
  | ApiConnect _ | ApiLogin _ _ | ApiPing
  | GetUserInfo _ _ _ | GetAllUsers _ _ | GetTrades _ _ _
  | OpenTrade _ _ _ _ _ _ _ _ _ _ | CloseTrade _ _ _
  | CreateUser _ _ _ | UpdateUser _ _ | DeleteUser _
  | GetSymbols _ _ | GetQuote _ _ _ => true
  | Initialize | Shutdown | ApiDisconnect | ApiIsConnected | GetLastError => false
  end.

(** Whether the session is closed after one more call, as the caller sees
    it: a successful initialize opens it, a shutdown that returns closes
    it. *)
Definition closed_after (closed : bool) (entry : ApiCall * outcome Reply) : bool :=
  match entry with
  | (Initialize, Done (Status code)) => if code =? MT4_SUCCESS then false else closed
  | (Shutdown, Done Void) => true
  | _ => closed
  end.

(** A history leaves the session closed: no initialize has succeeded yet,
    or none since the last shutdown. *)
Definition session_closed (log : list (ApiCall * outcome Reply)) : bool :=
  fold_left closed_after log true.

(** ** The serialising operations *)

(** A serialising operation with the arguments that are not its buffer. *)
Inductive Serializer : Type :=
| SerGetUserInfo (login : Z)
| SerGetAllUsers
| SerGetTrades (login : Z)
| SerOpenTrade (login : Z) (symbol : option string) (cmd : Z)
    (volume price stoploss takeprofit : double) (comment : option string)
| SerCreateUser (jsonData : option string)
| SerGetSymbols
| SerGetQuote (symbol : option string).

Definition serialize (s : Serializer) (buffer : ptr) (bufferSize : Z) : ApiCall :=
  match s with
  | SerGetUserInfo login => GetUserInfo login (Some buffer) bufferSize
  | SerGetAllUsers => GetAllUsers (Some buffer) bufferSize
  | SerGetTrades login => GetTrades login (Some buffer) bufferSize
  | SerOpenTrade login symbol cmd volume price stoploss takeprofit comment =>
      OpenTrade login symbol cmd volume price stoploss takeprofit comment
        (Some buffer) bufferSize
  | SerCreateUser jsonData => CreateUser jsonData (Some buffer) bufferSize
  | SerGetSymbols => GetSymbols (Some buffer) bufferSize
  | SerGetQuote symbol => GetQuote symbol (Some buffer) bufferSize
  end.

(** A call with the login argument of open_order blanked: two calls with
    the same image differ in that argument at most. *)
Definition forget_login (c : ApiCall) : ApiCall :=
  match c with
  | OpenTrade _ symbol cmd volume price stoploss takeprofit comment buffer bufferSize =>
      OpenTrade 0 symbol cmd volume price stoploss takeprofit comment buffer bufferSize
  | _ => c
  end.

(** The transaction requests in a trace. *)
Definition transaction_of (e : Event) : list TradeTransInfo.t :=
  match e with
  | Ev (Mgr _ (TradeTransaction info)) => [info]
  | Ev _ => []
  end.

Definition transactions (tr : list Event) : list TradeTransInfo.t :=
  flat_map transaction_of tr.

(** ** Which operations report through the last-error text *)

(** The operations that return a status code, ping apart. *)
Definition reports_error (c : ApiCall) : bool :=
  match c with
  | ApiPing | ApiIsConnected | Shutdown | GetLastError => false
  | _ => true
  end.

(** The codes of the failures the wrapper detects itself. *)
Definition detected_locally (code : Z) : bool :=
  (code =? MT4_ERROR_NOT_INITIALIZED) || (code =? MT4_ERROR_ALREADY_INITIALIZED)
  || (code =? MT4_ERROR_NOT_CONNECTED) || (code =? MT4_ERROR_INVALID_PARAMETER)
  || (code =? MT4_ERROR_BUFFER_TOO_SMALL).

(** ** Scripts *)

Definition with_IsConnected (o : outcome Z) (s : Script) : Script :=
  {| on_IsConnected := o;
     on_Connect := on_Connect s;
     on_Disconnect := on_Disconnect s;
     on_Ping := on_Ping s;
     on_ErrorDescription := on_ErrorDescription s;
     on_UserRecordsRequest := on_UserRecordsRequest s;
     on_UsersRequest := on_UsersRequest s;
     on_UserRecordNew := on_UserRecordNew s;
     on_TradeRecordGet := on_TradeRecordGet s;
     on_TradeTransaction := on_TradeTransaction s;
     on_SymbolInfoUpdated := on_SymbolInfoUpdated s;
     on_SymbolInfoGet := on_SymbolInfoGet s;
     on_TickInfoLast := on_TickInfoLast s |}.

Definition with_Disconnect (code : Z) (s : Script) : Script :=
  {| on_IsConnected := on_IsConnected s;
     on_Connect := on_Connect s;
     on_Disconnect := code;
     on_Ping := on_Ping s;
     on_ErrorDescription := on_ErrorDescription s;
     on_UserRecordsRequest := on_UserRecordsRequest s;
     on_UsersRequest := on_UsersRequest s;
     on_UserRecordNew := on_UserRecordNew s;
     on_TradeRecordGet := on_TradeRecordGet s;
     on_TradeTransaction := on_TradeTransaction s;
     on_SymbolInfoUpdated := on_SymbolInfoUpdated s;
     on_SymbolInfoGet := on_SymbolInfoGet s;
     on_TickInfoLast := on_TickInfoLast s |}.

Definition with_TradeRecordGet (code : Z) (s : Script) : Script :=
  {| on_IsConnected := on_IsConnected s;
     on_Connect := on_Connect s;
     on_Disconnect := on_Disconnect s;
     on_Ping := on_Ping s;
     on_ErrorDescription := on_ErrorDescription s;
     on_UserRecordsRequest := on_UserRecordsRequest s;
     on_UsersRequest := on_UsersRequest s;
     on_UserRecordNew := on_UserRecordNew s;
     on_TradeRecordGet := code;
     on_TradeTransaction := on_TradeTransaction s;
     on_SymbolInfoUpdated := on_SymbolInfoUpdated s;
     on_SymbolInfoGet := on_SymbolInfoGet s;
     on_TickInfoLast := on_TickInfoLast s |}.

Definition with_TickInfoLast (reply : option (block TickInfo.t) * Z) (s : Script)
    : Script :=
  {| on_IsConnected := on_IsConnected s;
     on_Connect := on_Connect s;
     on_Disconnect := on_Disconnect s;
     on_Ping := on_Ping s;
     on_ErrorDescription := on_ErrorDescription s;
     on_UserRecordsRequest := on_UserRecordsRequest s;
     on_UsersRequest := on_UsersRequest s;
     on_UserRecordNew := on_UserRecordNew s;
     on_TradeRecordGet := on_TradeRecordGet s;
     on_TradeTransaction := on_TradeTransaction s;
     on_SymbolInfoUpdated := on_SymbolInfoUpdated s;
     on_SymbolInfoGet := on_SymbolInfoGet s;
     on_TickInfoLast := reply |}.

(** A manager that reports no connection. *)
Definition offline : Script := with_IsConnected (Done 0) quiet.

(** A manager whose disconnect fails. *)
Definition stuck : Script := with_Disconnect 1 quiet.

(** A manager that knows no order. *)
Definition no_orders : Script := with_TradeRecordGet 2 quiet.

(** A manager with one tick for every symbol, in a block at address 5. *)
Definition one_tick : block TickInfo.t :=
  {| addr := 5%positive;
     cells := [ {| TickInfo.ctm := 1700000000;
                   TickInfo.bid := 1.25%float;
                   TickInfo.ask := 1.5%float |} ] |}.

Definition ticking : Script := with_TickInfoLast (Some one_tick, 1) quiet.

(** The caller's buffer in the examples. *)
Definition out : ptr := 9%positive.

(** The input of the create-user example:
    [{"login":4242,"password":"x","group":"g"}] without its braces. *)
Definition create_fragment : string :=
  q "login" ++ ":4242," ++ q "password" ++ ":" ++ q "x" ++ "," ++ q "group" ++ ":" ++ q "g".

(** The user records handed to [UserRecordNew] in a trace. *)
Definition created_user (e : Event) : list UserRecord.t :=
  match e with
  | Ev (Mgr _ (UserRecordNew user)) => [user]
  | Ev _ => []
  end.

Definition created_users (tr : list Event) : list UserRecord.t :=
  flat_map created_user tr.

(** The key markers of the field extractor. *)
Definition login_marker : string := q "login" ++ ":".
Definition password_marker : string := q "password" ++ ":" ++ dq.
Definition group_marker : string := q "group" ++ ":" ++ dq.
Definition name_marker : string := q "name" ++ ":" ++ dq.

(** The record the create-user example sends, with the name [nm]. *)
Definition example_user (nm : string) : UserRecord.t :=
  UserRecord.mk 4242 "g" "x" 1 1 nm empty 100 0%float 0%float.

(** ** The value of a double

    A finite binary64 number is the fraction [numerator / denominator]:
    sign and mantissa times a power of two.  Its integer part is that
    fraction with the digits after the point cut off, toward zero. *)






(** ** An input with two logins

    The example fragment inside an object whose first member holds a login
    of its own. *)
Definition nested_login : string :=
  "{" ++ q "ref" ++ ":{" ++ q "login" ++ ":7}," ++ create_fragment ++ "}".

(** ** Observations on calls and traces *)

(** The two operations that open and close the session. *)
Definition lifecycle (c : ApiCall) : bool :=
  match c with
  | Initialize | Shutdown => true
  | _ => false
  end.

(** The operations that ask the manager for the connection before they
    work. *)
Definition needs_connection (c : ApiCall) : bool :=
  match c with
  | ApiPing | OpenTrade _ _ _ _ _ _ _ _ _ _ | CloseTrade _ _ _
  | CreateUser _ _ _ | UpdateUser _ _ | DeleteUser _ | GetQuote _ _ _ => true
  | _ => false
  end.

Definition is_null {A : Type} (p : option A) : bool :=
  match p with
  | Some _ => false
  | None => true
  end.

(** A call with a null pointer where one is required, or with a capacity
    that is not positive. *)
Definition invalid_arguments (c : ApiCall) : bool :=
  match c with
  | ApiConnect server => is_null server
  | ApiLogin _ password => is_null password
  | GetUserInfo _ buffer bufferSize => is_null buffer || (bufferSize <=? 0)
  | GetAllUsers buffer bufferSize => is_null buffer || (bufferSize <=? 0)
  | GetTrades _ buffer bufferSize => is_null buffer || (bufferSize <=? 0)
  | GetSymbols buffer bufferSize => is_null buffer || (bufferSize <=? 0)
  | CreateUser jsonData buffer bufferSize =>
      is_null jsonData || is_null buffer || (bufferSize <=? 0)
  | UpdateUser _ jsonData => is_null jsonData
  | OpenTrade _ symbol _ _ _ _ _ _ buffer bufferSize =>
      is_null symbol || is_null buffer || (bufferSize <=? 0)
  | GetQuote symbol buffer bufferSize =>
      is_null symbol || is_null buffer || (bufferSize <=? 0)
  | _ => false
  end.

Definition is_GetQuote (c : ApiCall) : bool :=
  match c with
  | GetQuote _ _ _ => true
  | _ => false
  end.

(** The manager handle is live only while the factory is, and only in an
    initialised session. *)
Definition handle_guarded (s : Session) : Prop :=
  g_pManager s <> None -> g_pFactory s <> None /\ g_initialized s = true.

Definition any_MemFree (e : Event) : bool :=
  match e with
  | Ev (Mgr _ (MemFree _)) => true
  | Ev _ => false
  end.

(** How many blocks a sequence of calls frees. *)
Definition frees (tr : list Event) : nat := List.length (List.filter any_MemFree tr).

(** The user records handed to [UserRecordUpdate] in a trace. *)
Definition updated_user (e : Event) : list UserRecord.t :=
  match e with
  | Ev (Mgr _ (UserRecordUpdate user)) => [user]
  | Ev _ => []
  end.

Definition updated_users (tr : list Event) : list UserRecord.t :=
  flat_map updated_user tr.

(** The addresses handed to the manager's [Connect] in a trace. *)
Definition connect_of (e : Event) : list string :=
  match e with
  | Ev (Mgr _ (Connect server)) => [server]
  | Ev _ => []
  end.

Definition connects (tr : list Event) : list string := flat_map connect_of tr.

(** The texts of a list with [sep] between them. *)
Fixpoint join (sep : string) (l : list string) : string :=
  match l with
  | [] => empty
  | [x] => x
  | x :: rest => x ++ sep ++ join sep rest
  end.

(** The text of an array of [n] records at most. *)
Definition array_text {A : Type} (item : A -> string) (records : list A) (n : nat)
    : string :=
  "[" ++ join "," (map item (firstn n records)) ++ "]".

Definition has_quote (s : string) : bool :=
  match String.index 0 dq s with
  | Some _ => true
  | None => false
  end.

(** The items after the first one of an array text, each with its comma. *)
Fixpoint more_items {A : Type} (item : A -> string) (l : list A) : string :=
  match l with
  | [] => empty
  | x :: rest => "," ++ item x ++ more_items item rest
  end.

(** The serialising operations that are handed a block by the manager. *)
Definition takes_block (s : Serializer) : bool :=
  match s with
  | SerGetUserInfo _ | SerGetAllUsers | SerGetTrades _ | SerGetSymbols => true
  | _ => false
  end.

(** Whether a symbol entry carries a price. *)
Definition priced (t : SymbolInfo.t) : bool :=
  double_pos (SymbolInfo.bid t) || double_pos (SymbolInfo.ask t).

Definition names (symbol : string) (t : SymbolInfo.t) : bool :=
  String.eqb (SymbolInfo.symbol t) symbol.

(** What create_account fixes in every new record, whatever the input
    says. *)
Definition new_user_defaults (u : UserRecord.t) : Prop :=
  UserRecord.enable u = 1 /\ UserRecord.enable_change_password u = 1 /\
  UserRecord.leverage u = 100 /\ UserRecord.email u = empty /\
  UserRecord.balance u = 0%float /\ UserRecord.credit u = 0%float.

(** What update_account leaves alone: every field but name, email and
    group. *)
Definition same_account (old u : UserRecord.t) : Prop :=
  UserRecord.login u = UserRecord.login old /\
  UserRecord.password u = UserRecord.password old /\
  UserRecord.enable u = UserRecord.enable old /\
  UserRecord.enable_change_password u = UserRecord.enable_change_password old /\
  UserRecord.leverage u = UserRecord.leverage old /\
  UserRecord.balance u = UserRecord.balance old /\
  UserRecord.credit u = UserRecord.credit old.

(** The request open_order builds from its arguments, before the manager
    sees it. *)
Definition open_request_of (hd : ManagerHeader) (symbol : string) (cmd : Z)
    (volume price stoploss takeprofit : double) (comment : option string)
    (t : TradeTransInfo.t) : Prop :=
  TradeTransInfo.type t = to_trans_type hd cmd /\
  TradeTransInfo.cmd t = to_trans_cmd hd cmd /\
  TradeTransInfo.order t = 0 /\
  TradeTransInfo.symbol t = symbol /\
  (String.length symbol < sizeof_trans_symbol hd)%nat /\
  TradeTransInfo.volume t = lots_to_volume volume /\
  TradeTransInfo.price t = price /\
  TradeTransInfo.sl t = stoploss /\
  TradeTransInfo.tp t = takeprofit /\
  (String.length (TradeTransInfo.comment t) <= sizeof_trans_comment hd - 1)%nat /\
  match comment with
  | Some text => String.prefix (TradeTransInfo.comment t) text = true
  | None => TradeTransInfo.comment t = empty
  end.

(** The request close_order builds for an order it found. *)
Definition close_request_of (hd : ManagerHeader) (order : Z) (lots price : double)
    (found : TradeRecord.t) (t : TradeTransInfo.t) : Prop :=
  TradeTransInfo.type t = to_trans_type hd (TT_ORDER_CLOSE_BY hd) /\
  TradeTransInfo.cmd t = to_trans_cmd hd (OP_BUY hd) /\
  TradeTransInfo.order t = order /\
  TradeTransInfo.orderby t = order /\
  TradeTransInfo.symbol t = TradeRecord.symbol found /\
  TradeTransInfo.volume t
  = (if double_pos lots then lots_to_volume lots else TradeRecord.volume found) /\
  TradeTransInfo.price t
  = (if double_pos price then price else TradeRecord.close_price found).

(** The number a decimal numeral adds to the digits read so far. *)
Fixpoint uint_value (d : Decimal.uint) (acc : Z) : Z :=
  match d with
  | Decimal.Nil => acc
  | Decimal.D0 l => uint_value l (acc * 10 + 0)
  | Decimal.D1 l => uint_value l (acc * 10 + 1)
  | Decimal.D2 l => uint_value l (acc * 10 + 2)
  | Decimal.D3 l => uint_value l (acc * 10 + 3)
  | Decimal.D4 l => uint_value l (acc * 10 + 4)
  | Decimal.D5 l => uint_value l (acc * 10 + 5)
  | Decimal.D6 l => uint_value l (acc * 10 + 6)
  | Decimal.D7 l => uint_value l (acc * 10 + 7)
  | Decimal.D8 l => uint_value l (acc * 10 + 8)
  | Decimal.D9 l => uint_value l (acc * 10 + 9)
  end.

(** A text that does not go on with a digit. *)
Definition no_digit_ahead (rest : string) : Prop :=
  match rest with
  | String c _ => digit_of c = None
  | EmptyString => True
  end.

(** A reply of the manager with no records in it: no block, or a count
    that is not positive. *)
Definition no_records {A : Type} (reply : option (block A) * Z) : Prop :=
  fst reply = None \/ snd reply <= 0.

(** What a listing does with such a reply, after the calls [calls]: with
    room for the two brackets and the terminator it writes the empty array
    and returns success; with less room [strcpy_s] ends the process. *)
Definition writes_empty_array {R : Type} (w : World R) (buffer : ptr) (bufferSize : Z)
    (calls : list Event) (result : outcome Z * World R) : Prop :=
  trace (snd result) = (trace w ++ calls)%list /\
  (2 < bufferSize ->
   fst result = Done MT4_SUCCESS /\ mem (snd result) buffer = "[]" /\
   g_lastError (globals (snd result)) = empty) /\
  (bufferSize <= 2 -> fst result = Fault).

Definition not_lifecycle (c : ApiCall) : bool := negb (lifecycle c).

Definition accepted (entry : ApiCall * outcome Reply) : Prop :=
  snd entry <> Done (Status MT4_ERROR_NOT_INITIALIZED).

(** ** More scripts *)

Definition alice : UserRecord.t :=
  UserRecord.mk 7 "demo" "secret" 1 1 "Alice" "alice@example.org" 100 0%float 0%float.

(** A block with one account, at address 6. *)
Definition one_user : block UserRecord.t := {| addr := 6%positive; cells := [alice] |}.

(** A manager that knows one account. *)
Definition peopled : Script :=
  {| on_IsConnected := Done 1;
     on_Connect := 0;
     on_Disconnect := 0;
     on_Ping := 0;
     on_ErrorDescription := None;
     on_UserRecordsRequest := (Some one_user, 1);
     on_UsersRequest := (Some one_user, 1);
     on_UserRecordNew := 0;
     on_TradeRecordGet := 0;
     on_TradeTransaction := (0, 7);
     on_SymbolInfoUpdated := (0, []);
     on_SymbolInfoGet := 0;
     on_TickInfoLast := (None, 0) |}.

Definition eurusd : SymbolInfo.t :=
  SymbolInfo.mk "EURUSD" 5 2 1700000000 1.25%float 1.5%float.

(** A manager that reports one updated symbol with its prices. *)
Definition updating : Script :=
  {| on_IsConnected := Done 1;
     on_Connect := 0;
     on_Disconnect := 0;
     on_Ping := 0;
     on_ErrorDescription := None;
     on_UserRecordsRequest := (None, 0);
     on_UsersRequest := (None, 0);
     on_UserRecordNew := 0;
     on_TradeRecordGet := 0;
     on_TradeTransaction := (0, 7);
     on_SymbolInfoUpdated := (1, [eurusd]);
     on_SymbolInfoGet := 0;
     on_TickInfoLast := (None, 0) |}.

(** A manager with no price for any symbol. *)
Definition priceless : Script :=
  {| on_IsConnected := Done 1;
     on_Connect := 0;
     on_Disconnect := 0;
     on_Ping := 0;
     on_ErrorDescription := None;
     on_UserRecordsRequest := (None, 0);
     on_UsersRequest := (None, 0);
     on_UserRecordNew := 0;
     on_TradeRecordGet := 0;
     on_TradeTransaction := (0, 7);
     on_SymbolInfoUpdated := (0, []);
     on_SymbolInfoGet := 2;
     on_TickInfoLast := (None, 0) |}.

(** The session after initialize and shutdown on the scripted platform. *)
Definition closed_again (s : Script) : World Script :=
  snd (api scripted Shutdown (ready s)).

(** The open_order of the examples. *)
Definition sample_order : Serializer :=
  SerOpenTrade 5 (Some "EURUSD") 0 1.5%float 1.25%float 0%float 0%float None.

(** ** Symbolic execution

    The operations are straight-line code over the monad: a run is followed
    by unfolding the monad and splitting on the scrutinee at the head, the
    answer of the oracle or a test of the source. *)

Ltac unfold_model_in H :=
  cbv beta iota zeta delta
    [MT4_Initialize MT4_Shutdown MT4_Connect MT4_Login MT4_Disconnect MT4_IsConnected
     MT4_GetLastError MT4_Ping MT4_GetUserInfo MT4_GetAllUsers MT4_GetTrades
     MT4_GetSymbols MT4_OpenTrade MT4_CloseTrade MT4_CreateUser MT4_UpdateUser
     MT4_DeleteUser MT4_GetQuote
     if_initialized catch_internal list_records status api bind ret try_catch lift
     get_session put_session call mgr strcpy_s SetError set_pManager set_pFactory
     set_initialized set_mockConnected SafeIsConnected Initialize_rollback
     globals mem remote trace g_pManager g_pFactory g_lastError g_initialized
     g_bypassMode g_mockConnected negb] in H.

Ltac unfold_model :=
  cbv beta iota zeta delta
    [MT4_Initialize MT4_Shutdown MT4_Connect MT4_Login MT4_Disconnect MT4_IsConnected
     MT4_GetLastError MT4_Ping MT4_GetUserInfo MT4_GetAllUsers MT4_GetTrades
     MT4_GetSymbols MT4_OpenTrade MT4_CloseTrade MT4_CreateUser MT4_UpdateUser
     MT4_DeleteUser MT4_GetQuote
     if_initialized catch_internal list_records status api bind ret try_catch lift
     get_session put_session call mgr strcpy_s SetError set_pManager set_pFactory
     set_initialized set_mockConnected SafeIsConnected Initialize_rollback
     globals mem remote trace g_pManager g_pFactory g_lastError g_initialized
     g_bypassMode g_mockConnected negb].

Ltac head_scrutinee t :=
  lazymatch t with
  | match ?x with _ => _ end => head_scrutinee x
  | (match ?x with _ => _ end) _ => head_scrutinee x
  | _ => t
  end.

Ltac exec_step H :=
  lazymatch type of H with
  | (_, _) = (_, _) => fail
  | ?run = _ =>
      let x := head_scrutinee run in
      destruct x eqn:?; cbv beta iota in H
  end.

Ltac exec H := unfold_model_in H; repeat exec_step H.

Ltac open_world w :=
  let pm := fresh "pManager" in
  let pf := fresh "pFactory" in
  let le := fresh "lastError" in
  let ini := fresh "initialized" in
  let bm := fresh "bypassMode" in
  let mc := fresh "mockConnected" in
  destruct w as [[pm pf le ini bm mc] ? ? ?]; cbn [globals mem remote trace
    g_pManager g_pFactory g_lastError g_initialized g_bypassMode g_mockConnected] in *.

Section Lifecycle.

Context {R : Type} (P : Platform R).

(** From a closed session only a successful initialize sets the flag. *)
Lemma closed_stays_closed (c : ApiCall) (w w' : World R) (o : outcome Reply) :
  api P c w = (o, w') ->
  g_initialized (globals w) = false ->
  (c = Initialize /\ o = Done (Status MT4_SUCCESS)) \/
  g_initialized (globals w') = false.
Proof.
  intros H Hclosed. open_world w. subst.
  destruct c; exec H; inversion H; subst; clear H;
    solve [right; reflexivity | left; split; reflexivity].
Qed.

(** A shutdown that returns leaves the flag cleared. *)
Lemma shutdown_closes (w w' : World R) :
  api P Shutdown w = (Done Void, w') ->
  g_initialized (globals w') = false.
Proof.
  intros H. open_world w.
  exec H; inversion H; subst; clear H; reflexivity.
Qed.

Lemma closed_after_sound (c : ApiCall) (w w' : World R) (o : outcome Reply) (b : bool) :
  api P c w = (o, w') ->
  (b = true -> g_initialized (globals w) = false) ->
  closed_after b (c, o) = true ->
  g_initialized (globals w') = false.
Proof.
  intros H Hb Hafter.
  destruct b.
  - destruct (closed_stays_closed c w w' o H (Hb eq_refl)) as [[-> ->] | Hflag].
    + discriminate Hafter.
    + exact Hflag.
  - destruct c; try discriminate Hafter.
    + destruct o as [[code | | s] | e |]; try discriminate Hafter.
      cbn in Hafter. destruct (code =? MT4_SUCCESS); discriminate Hafter.
    + destruct o as [[code | | s] | e |]; try discriminate Hafter.
      exact (shutdown_closes w w' H).
Qed.

Lemma run_closed (calls : list ApiCall) :
  forall (w w' : World R) (log : list (ApiCall * outcome Reply)) (b : bool),
    run P calls w = (log, w') ->
    (b = true -> g_initialized (globals w) = false) ->
    fold_left closed_after log b = true ->
    g_initialized (globals w') = false.
Proof.
  induction calls as [| c rest IH]; intros w w' log b Hrun Hb Hlog; cbn in Hrun.
  - inversion Hrun; subst. cbn in Hlog. auto.
  - destruct (api P c w) as [o w1] eqn:Hc.
    assert (Hstep : closed_after b (c, o) = true -> g_initialized (globals w1) = false)
      by (apply (closed_after_sound c w w1 o b Hc Hb)).
    destruct o as [a | e |].
    + destruct (run P rest w1) as [log' w2] eqn:Hrest.
      inversion Hrun; subst. cbn [fold_left] in Hlog.
      apply (IH w1 w' log' _ Hrest Hstep Hlog).
    + destruct (run P rest w1) as [log' w2] eqn:Hrest.
      inversion Hrun; subst. cbn [fold_left] in Hlog.
      apply (IH w1 w' log' _ Hrest Hstep Hlog).
    + inversion Hrun; subst. cbn [fold_left] in Hlog. auto.
Qed.

(** In a closed session a gated operation stops at its first guard. *)
Lemma gated_not_initialized (c : ApiCall) (w : World R) :
  gated c = true ->
  g_initialized (globals w) = false ->
  exists w',
    api P c w = (Done (Status MT4_ERROR_NOT_INITIALIZED), w') /\
    trace w' = trace w /\ remote w' = remote w /\ mem w' = mem w /\
    g_lastError (globals w') = "Not initialized".
Proof.
  intros Hgated Hclosed. open_world w. subst.
  destruct c; try discriminate Hgated;
    (eexists; split; [unfold_model; reflexivity | repeat split]).
Qed.

(** C1: after any history of calls that leaves the session closed (no
    successful initialize yet, or none since the last shutdown), each of
    connect, login, ping and the record operations returns NotInitialized
    and makes no call out of the wrapper, so none to the remote capability. *)
Theorem closed_session_rejects (mem0 : ptr -> string) (r : R)
    (calls : list ApiCall) (log : list (ApiCall * outcome Reply)) (w : World R)
    (c : ApiCall) :
  run P calls (initial_world mem0 r) = (log, w) ->
  session_closed log = true ->
  gated c = true ->
  exists w',
    api P c w = (Done (Status MT4_ERROR_NOT_INITIALIZED), w') /\
    trace w' = trace w /\ remote w' = remote w.
Proof.
  intros Hrun Hlog Hgated.
  assert (Hflag : g_initialized (globals w) = false).
  { apply (run_closed calls _ w log true Hrun); [reflexivity | exact Hlog]. }
  destruct (gated_not_initialized c w Hgated Hflag) as (w' & Hc & Htrace & Hremote & _).
  exists w'. auto.
Qed.

End Lifecycle.

Lemma store_same (p : ptr) (s : string) (m : ptr -> string) : store p s m p = s.
Proof. unfold store. now rewrite Pos.eqb_refl. Qed.

Section Serialisation.

Context {R : Type} (P : Platform R).

Ltac settle_goal :=
  repeat first
    [ progress cbv beta iota
    | match goal with
      | E : oracle _ _ _ = _ |- _ => rewrite E
      | E : ?x = _ |- context [?x] => rewrite E
      end ].

(** C2, amended: for every serialising operation and every positive
    capacity, a return of BufferTooSmall leaves the caller's memory as it
    was; and when the text of a record or of a list with records (the text
    the operation writes when it is given room) is as long as the capacity
    or longer, the terminator not counted, the operation returns
    BufferTooSmall and leaves the memory as it was.  A text that is shorter
    than the capacity, so that it fits with its terminator, is written as
    with any other capacity that has room for it. *)
Theorem too_small_is_refused (s : Serializer) (buffer : ptr) (bufferSize : Z)
    (w : World R) :
  0 < bufferSize ->
  (forall w',
      api P (serialize s buffer bufferSize) w
        = (Done (Status MT4_ERROR_BUFFER_TOO_SMALL), w') ->
      mem w' = mem w) /\
  (forall (roomy : Z) (w0 : World R),
      api P (serialize s buffer roomy) w = (Done (Status MT4_SUCCESS), w0) ->
      mem w0 buffer <> "[]" ->
      bufferSize <= len (mem w0 buffer) ->
      exists w',
        api P (serialize s buffer bufferSize) w
          = (Done (Status MT4_ERROR_BUFFER_TOO_SMALL), w') /\
        mem w' = mem w) /\
  (forall (roomy : Z) (w0 : World R),
      api P (serialize s buffer roomy) w = (Done (Status MT4_SUCCESS), w0) ->
      len (mem w0 buffer) < bufferSize ->
      api P (serialize s buffer bufferSize) w = (Done (Status MT4_SUCCESS), w0)).
Proof.
  intros Hpos. split; [| split].
  - intros w' H. open_world w.
    destruct s; cbn [serialize] in H; exec H; inversion H; subst; clear H;
      try reflexivity.
  - intros roomy w0 H Hrecords Hsmall. open_world w.
    assert (Hcap : (bufferSize <=? 0) = false) by (apply Z.leb_gt; exact Hpos).
    destruct s; cbn [serialize] in H |- *.
    all: exec H; inversion H; subst; clear H.
    all: cbn [mem] in Hrecords, Hsmall; rewrite ?store_same in Hrecords, Hsmall.
    all: try (exfalso; apply Hrecords; reflexivity).
    all: apply Z.leb_le in Hsmall.
    all: eexists; split; [unfold_model; settle_goal; try reflexivity | try reflexivity].
  - intros roomy w0 H Hfits. open_world w.
    assert (Hcap : (bufferSize <=? 0) = false) by (apply Z.leb_gt; exact Hpos).
    destruct s; cbn [serialize] in H |- *.
    all: exec H; inversion H; subst; clear H.
    all: cbn [mem] in Hfits; rewrite ?store_same in Hfits.
    all: pose proof (proj2 (Z.leb_gt _ _) Hfits) as Hcheck.
    all: pose proof (proj2 (Z.ltb_lt _ _) Hfits) as Hcopy.
    all: unfold_model; settle_goal; reflexivity.
Qed.

End Serialisation.

Section Reporting.

Context {R : Type} (P : Platform R).

(** C4, amended: every operation that returns a status code, ping apart,
    leaves the last-error text empty when it returns success, and a
    non-empty text when it returns one of the failures the wrapper detects
    itself (NotInitialized, AlreadyInitialized, NotConnected,
    InvalidParameter, BufferTooSmall). *)
Theorem last_error_follows_status (c : ApiCall) (w w' : World R) (code : Z) :
  reports_error c = true ->
  api P c w = (Done (Status code), w') ->
  (code = MT4_SUCCESS -> g_lastError (globals w') = empty) /\
  (detected_locally code = true -> g_lastError (globals w') <> empty).
Proof.
  intros Hop H. open_world w.
  destruct c; try discriminate Hop; exec H; inversion H; subst; clear H;
    cbn [globals g_lastError];
    (split; [intros Hcode | intros Hcode Htext]);
    repeat match type of Hcode with
           | context [if ?b then _ else _] => destruct b
           end;
    first [reflexivity | discriminate Hcode | discriminate Htext].
Qed.

(** C6, amended: in an initialised session connect with a null address
    returns InvalidParameter and makes no call; a non-null address, the
    empty one too, is never answered with InvalidParameter: once the
    working directory is set and the pause is over, the address (its first
    255 characters, which for the empty address is the empty address) is
    handed to the manager's connect, and the manager's answer decides
    between success and failure; in a session that is not initialised
    connect returns NotInitialized. *)
Theorem connect_guards (w : World R) :
  (forall m,
      g_initialized (globals w) = true ->
      g_pManager (globals w) = Some m ->
      exists w',
        MT4_Connect P None w = (Done MT4_ERROR_INVALID_PARAMETER, w') /\
        trace w' = trace w) /\
  (forall m (server : string) (o : outcome Z) (w' : World R),
      g_initialized (globals w) = true ->
      g_pManager (globals w) = Some m ->
      MT4_Connect P (Some server) w = (o, w') ->
      o <> Done MT4_ERROR_INVALID_PARAMETER) /\
  (forall m (server : string) (cwd : Z * string) (r1 r2 r3 r4 : R) (code : Z),
      g_initialized (globals w) = true ->
      g_pManager (globals w) = Some m ->
      oracle P (GetCurrentDirectoryA MAX_PATH) (remote w) = (Done cwd, r1) ->
      (if 0 <? fst cwd
       then oracle P (Mgr m (WorkingDirectory (snd cwd))) r1 = (Done tt, r2)
       else r2 = r1) ->
      oracle P (Sleep 100) r2 = (Done tt, r3) ->
      oracle P (Mgr m (Connect (truncate 255 server))) r3 = (Done code, r4) ->
      exists after : list Event,
        trace (snd (MT4_Connect P (Some server) w))
        = (trace w
           ++ [Ev (GetCurrentDirectoryA MAX_PATH)]
           ++ (if 0 <? fst cwd then [Ev (Mgr m (WorkingDirectory (snd cwd)))] else [])
           ++ [Ev (Sleep 100); Ev (Mgr m (Connect (truncate 255 server)))]
           ++ after)%list /\
        (code = RET_OK (hdr P) ->
         fst (MT4_Connect P (Some server) w) = Done MT4_SUCCESS /\ after = []) /\
        (code <> RET_OK (hdr P) ->
         fst (MT4_Connect P (Some server) w) <> Done MT4_SUCCESS /\
         after = [Ev (Mgr m (ErrorDescription code))])) /\
  (forall server,
      g_initialized (globals w) = false ->
      exists w',
        MT4_Connect P server w = (Done MT4_ERROR_NOT_INITIALIZED, w') /\
        trace w' = trace w).
Proof.
  open_world w. repeat apply conj.
  - intros m -> ->. eexists; split; [unfold_model; reflexivity | reflexivity].
  - intros m server o w' -> -> H.
    exec H; inversion H; subst; clear H; discriminate.
  - intros m server cwd r1 r2 r3 r4 code -> -> Hcwd Hdir Hsleep Hconnect.
    destruct (MT4_Connect P (Some server) _) as [o w'] eqn:H.
    cbn [fst snd]. cbn [remote] in Hcwd.
    unfold_model_in H. rewrite Hcwd in H. cbv beta iota in H.
    revert H Hdir. destruct (0 <? fst cwd); intros H Hdir;
      [rewrite Hdir in H; cbv beta iota in H | subst r2];
      rewrite Hsleep in H; cbv beta iota in H;
      rewrite Hconnect in H; cbv beta iota in H;
      (destruct (Z.eqb_spec code (RET_OK (hdr P))) as [Hok | Hbad];
       repeat exec_step H; inversion H; subst; clear H; cbn [trace];
       rewrite <- ?app_assoc; cbn [app];
       (eexists; split; [reflexivity |]);
       (split; intros Hcode;
        first [contradiction | split; first [reflexivity | discriminate]])).
  - intros server ->. eexists; split; [unfold_model; reflexivity | reflexivity].
Qed.

(** C7: in an initialised and connected session, closing an order whose
    lookup the manager answers with a failure code returns InternalError,
    leaves the text "Trade not found", and sends no trade transaction: the
    connection check and the lookup are the only calls made. *)
Theorem close_unknown_order (m : ptr) (order : Z) (lots price : double)
    (w : World R) (connected code : Z) (trade : TradeRecord.t) (r1 r2 : R) :
  g_initialized (globals w) = true ->
  g_pManager (globals w) = Some m ->
  oracle P (Mgr m IsConnected) (remote w) = (Done connected, r1) ->
  connected <> 0 ->
  oracle P (Mgr m (TradeRecordGet order TradeRecord.zero)) r1 = (Done (code, trade), r2) ->
  code <> RET_OK (hdr P) ->
  exists (w' : World R) (calls : list Event),
    MT4_CloseTrade P order lots price w = (Done MT4_ERROR_INTERNAL, w') /\
    g_lastError (globals w') = "Trade not found" /\
    trace w' = (trace w ++ calls)%list /\
    calls = [Ev (Mgr m IsConnected); Ev (Mgr m (TradeRecordGet order TradeRecord.zero))] /\
    existsb is_TradeTransaction calls = false.
Proof.
  intros Hinit Hmgr Hconn Hup Hget Hcode. open_world w. subst.
  apply Z.eqb_neq in Hup, Hcode.
  eexists. eexists. split; [| split; [| split; [| split]]].
  - unfold_model. rewrite Hconn. cbv beta iota. rewrite Hup. cbv beta iota.
    rewrite Hget. cbv beta iota. cbn [fst snd]. rewrite Hcode. cbv beta iota.
    reflexivity.
  - reflexivity.
  - cbn [trace]. rewrite <- app_assoc. reflexivity.
  - reflexivity.
  - reflexivity.
Qed.

Lemma api_forget_login (c1 c2 : ApiCall) :
  forget_login c1 = forget_login c2 -> api P c1 = api P c2.
Proof.
  destruct c1, c2; cbn [forget_login]; intros H; try discriminate H;
    try reflexivity; try (rewrite H; reflexivity).
  injection H as -> -> -> -> -> -> -> -> ->. reflexivity.
Qed.

(** C10: two calls of open_order that agree on every argument but the
    login run the same: the same status code, the same transaction request
    sent to the manager, the same contents of the caller's memory and the
    same last-error text; indeed the same world afterwards.  The same holds
    along histories: two histories that differ in the login arguments of
    their open_order calls only give the same outcomes and end in the same
    world. *)
Theorem open_trade_ignores_login :
  (forall (login1 login2 : Z) (symbol : option string) (cmd : Z)
          (volume price stoploss takeprofit : double) (comment : option string)
          (buffer : option ptr) (bufferSize : Z) (w : World R),
      let one := MT4_OpenTrade P login1 symbol cmd volume price stoploss takeprofit
                   comment buffer bufferSize w in
      let other := MT4_OpenTrade P login2 symbol cmd volume price stoploss takeprofit
                     comment buffer bufferSize w in
      fst one = fst other /\
      transactions (trace (snd one)) = transactions (trace (snd other)) /\
      mem (snd one) = mem (snd other) /\
      g_lastError (globals (snd one)) = g_lastError (globals (snd other)) /\
      snd one = snd other) /\
  (forall (calls1 calls2 : list ApiCall) (w : World R),
      map forget_login calls1 = map forget_login calls2 ->
      map snd (fst (run P calls1 w)) = map snd (fst (run P calls2 w)) /\
      snd (run P calls1 w) = snd (run P calls2 w)).
Proof.
  split.
  - intros. repeat split.
  - induction calls1 as [| c1 rest1 IH]; intros [| c2 rest2] w Hsame;
      try discriminate Hsame.
    + split; reflexivity.
    + cbn [map] in Hsame. injection Hsame as Hcall Hrest.
      cbn [run]. rewrite (api_forget_login c1 c2 Hcall).
      destruct (api P c2 w) as [[reply | e |] w1].
      * specialize (IH rest2 w1 Hrest).
        destruct (run P rest1 w1) as [log1 end1], (run P rest2 w1) as [log2 end2].
        cbn [fst snd map] in IH |- *. destruct IH as [-> ->]. split; reflexivity.
      * specialize (IH rest2 w1 Hrest).
        destruct (run P rest1 w1) as [log1 end1], (run P rest2 w1) as [log2 end2].
        cbn [fst snd map] in IH |- *. destruct IH as [-> ->]. split; reflexivity.
      * split; reflexivity.
Qed.

End Reporting.

(** ** The field extractor on texts *)

Lemma string_skipn_app (pre s : string) (n : nat) :
  string_skipn (String.length pre + n) (pre ++ s) = string_skipn n s.
Proof. induction pre as [| a pre IH]; cbn; [reflexivity | exact IH]. Qed.

Lemma index_app_offset (pre s needle : string) (n : nat) :
  String.index (String.length pre + n) needle (pre ++ s)
  = option_map (Nat.add (String.length pre)) (String.index n needle s).
Proof.
  induction pre as [| a pre IH]; cbn [String.length append Nat.add].
  - destruct (String.index n needle s); reflexivity.
  - cbn [String.index]. rewrite IH.
    destruct (String.index n needle s); reflexivity.
Qed.

Lemma substring_app_offset (pre s : string) (n k : nat) :
  String.substring (String.length pre + n) k (pre ++ s) = String.substring n k s.
Proof. induction pre as [| a pre IH]; cbn; [reflexivity | exact IH]. Qed.

(** A field whose marker is missing keeps its value, and that is no
    error. *)
Lemma extract_text_absent (json marker : string) (offset size : nat) (current : string) :
  find marker 0 json = None ->
  extract_text json marker offset size current = Done current.
Proof. intros H. unfold extract_text. now rewrite H. Qed.

(** A field whose first marker sits [k] characters into [rest], after any
    prefix, is read from [rest]. *)
Lemma extract_text_at (pre rest marker : string) (offset size k e : nat)
    (current : string) :
  find marker 0 (pre ++ rest) = Some (String.length pre + k)%nat ->
  String.index (k + offset) dq rest = Some e ->
  extract_text (pre ++ rest) marker offset size current
  = strcpy_field size (String.substring (k + offset) (e - k - offset) rest).
Proof.
  intros Hmarker Hquote. unfold extract_text. rewrite Hmarker.
  unfold find, substr.
  replace (String.length pre + k + offset)%nat
    with (String.length pre + (k + offset))%nat by lia.
  rewrite index_app_offset, Hquote. cbn [option_map].
  rewrite substring_app_offset.
  replace (String.length pre + e - (String.length pre + k) - offset)%nat
    with (e - k - offset)%nat by lia.
  reflexivity.
Qed.

Ltac user_fields :=
  cbv beta iota delta [UserRecord.set_login UserRecord.set_password UserRecord.set_group
       UserRecord.set_name UserRecord.set_enable UserRecord.set_leverage
       UserRecord.set_enable_change_password UserRecord.zero
       UserRecord.login UserRecord.group UserRecord.password UserRecord.enable
       UserRecord.enable_change_password UserRecord.name UserRecord.email
       UserRecord.leverage UserRecord.balance UserRecord.credit].

Section Creation.

Context {R : Type} (P : Platform R).

(** C9, amended: on an input without the name marker the name step of
    create_account returns the field as it was, without an error, and the
    record handed to the manager carries the default name, the empty text,
    whatever else the call does; and on an input in which the first
    occurrences of the login, password and group markers are those of
    ["login":4242,"password":"x","group":"g"], in a connected session,
    with a buffer that is large enough and a manager that accepts the
    record and leaves its login as sent, it returns success and writes
    [{"success":true,"login":4242}]. *)
Theorem create_user_example :
  (forall (json current : string),
      find name_marker 0 json = None ->
      extract_text json name_marker 8 (sizeof_user_name (hdr P)) current = Done current) /\
  (forall (json : string) (buffer : option ptr) (bufferSize : Z)
          (w w' : World R) (o : outcome Z),
      find name_marker 0 json = None ->
      MT4_CreateUser P (Some json) buffer bufferSize w = (o, w') ->
      exists calls : list Event,
        trace w' = (trace w ++ calls)%list /\
        Forall (fun u => UserRecord.name u = empty) (created_users calls)) /\
  (forall (m : ptr) (pre post nm : string) (buffer : ptr) (bufferSize : Z)
          (w : World R) (connected : Z) (returned : UserRecord.t) (r1 r2 : R),
      let json := pre ++ create_fragment ++ post in
      g_initialized (globals w) = true ->
      g_pManager (globals w) = Some m ->
      oracle P (Mgr m IsConnected) (remote w) = (Done connected, r1) ->
      connected <> 0 ->
      (1 < sizeof_user_password (hdr P))%nat ->
      (1 < sizeof_user_group (hdr P))%nat ->
      find login_marker 0 json = Some (String.length pre) ->
      find password_marker 0 json = Some (String.length pre + 13)%nat ->
      find group_marker 0 json = Some (String.length pre + 28)%nat ->
      extract_text json name_marker 8 (sizeof_user_name (hdr P)) empty = Done nm ->
      oracle P (Mgr m (UserRecordNew (example_user nm))) r1
        = (Done (RET_OK (hdr P), returned), r2) ->
      UserRecord.login returned = 4242 ->
      29 < bufferSize ->
      exists w' : World R,
        MT4_CreateUser P (Some json) (Some buffer) bufferSize w = (Done MT4_SUCCESS, w') /\
        mem w' buffer = "{" ++ q "success" ++ ":true," ++ q "login" ++ ":4242}" /\
        g_lastError (globals w') = empty /\
        trace w' = (trace w ++ [Ev (Mgr m IsConnected);
                                Ev (Mgr m (UserRecordNew (example_user nm)))])%list).
Proof.
  split; [| split].
  - intros json current Hname. apply extract_text_absent, Hname.
  - intros json buffer bufferSize w w' o Hname H. open_world w.
    unfold name_marker in Hname.
    exec H; inversion H; subst; clear H; cbn [trace];
      repeat match goal with
             | E : extract_text _ (q "name" ++ _) _ _ _ = _ |- _ =>
                 rewrite (extract_text_absent _ _ _ _ _ Hname) in E;
                 inversion E; subst; clear E
             end;
      rewrite <- ?app_assoc;
      first [ exists []; split; [symmetry; apply app_nil_r | constructor]
            | eexists; split; [reflexivity |];
              cbn; repeat constructor;
              match goal with
              | |- context [match find ?a ?b ?c with _ => _ end] =>
                  destruct (find a b c); reflexivity
              end ].
  - intros m pre post nm buffer bufferSize w connected returned r1 r2 json
      Hinit Hmgr Hconn Hup Hpwd Hgrp Hlogin Hpassword Hgroup Hname Hnew Hsame Hroom.
    open_world w. destruct returned as [login' ? ? ? ? ? ? ? ? ?].
    cbn [UserRecord.login] in Hsame. subst.
    apply Z.eqb_neq in Hup.
    unfold login_marker in Hlogin. unfold password_marker in Hpassword.
    unfold group_marker in Hgroup. unfold name_marker in Hname.
    assert (Hcap : (bufferSize <=? 0) = false) by (apply Z.leb_gt; lia).
    assert (Hfit : (bufferSize <=? len (created_json 4242)) = false)
      by (apply Z.leb_gt; change (len (created_json 4242)) with 29; exact Hroom).
    assert (Hp : extract_text json (q "password" ++ ":" ++ dq) 12
                   (sizeof_user_password (hdr P)) empty = Done "x").
    { unfold json.
      rewrite (extract_text_at pre (create_fragment ++ post) _ 12 _ 13 26 empty Hpassword)
        by reflexivity.
      change (String.substring (13 + 12) (26 - 13 - 12) (create_fragment ++ post))
        with "x".
      unfold strcpy_field. change (String.length "x") with 1%nat.
      destruct (Nat.ltb_spec 1 (sizeof_user_password (hdr P))); [reflexivity | lia]. }
    assert (Hg : extract_text json (q "group" ++ ":" ++ dq) 9
                   (sizeof_user_group (hdr P)) empty = Done "g").
    { unfold json.
      rewrite (extract_text_at pre (create_fragment ++ post) _ 9 _ 28 38 empty Hgroup)
        by (destruct post; reflexivity).
      change (String.substring (28 + 9) (38 - 28 - 9) (create_fragment ++ post))
        with "g".
      unfold strcpy_field. change (String.length "g") with 1%nat.
      destruct (Nat.ltb_spec 1 (sizeof_user_group (hdr P))); [reflexivity | lia]. }
    assert (Hl : atoi (string_skipn (String.length pre + 8) json) = 4242).
    { unfold json. rewrite string_skipn_app. vm_compute. reflexivity. }
    eexists. split; [| split; [| split]].
    + unfold_model. fold json.
      rewrite Hcap. cbv beta iota. rewrite Hconn. cbv beta iota.
      rewrite Hup. cbv beta iota. rewrite Hlogin.
      user_fields. rewrite Hp. cbv beta iota.
      user_fields. rewrite Hg. cbv beta iota.
      user_fields. rewrite Hname. cbv beta iota.
      user_fields. rewrite Hl. unfold example_user in Hnew. rewrite Hnew.
      cbv beta iota. cbn [fst snd]. rewrite Z.eqb_refl. cbv beta iota.
      user_fields. rewrite Hfit. cbv beta iota.
      apply Z.leb_gt, Z.ltb_lt in Hfit. rewrite Hfit. reflexivity.
    + cbn [mem]. rewrite store_same. reflexivity.
    + reflexivity.
    + cbn [trace]. rewrite <- app_assoc. reflexivity.
Qed.

End Creation.

(** ** Numbers *)


Section Volumes.

Context {R : Type} (P : Platform R).


End Volumes.

(** ** Runs on the scripted platform *)

(** A session that was opened, used and shut down rejects a ping. *)
Lemma closed_session_rejects_witness :
  let calls := [Initialize; ApiPing; Shutdown] in
  let w := snd (run scripted calls (initial_world stale quiet)) in
  exists w',
    api scripted ApiPing w = (Done (Status MT4_ERROR_NOT_INITIALIZED), w') /\
    trace w' = trace w /\ remote w' = remote w.
Proof.
  apply (closed_session_rejects scripted stale quiet [Initialize; ApiPing; Shutdown]
           (fst (run scripted [Initialize; ApiPing; Shutdown] (initial_world stale quiet))));
    [apply surjective_pairing | vm_compute; reflexivity | reflexivity].
Defined.

(** C2 as stated fails where the text and its terminator fill the buffer
    exactly: the eleven characters of [{"order":7}] and the terminator are
    twelve bytes, the capacity is twelve, and the text is written. *)
Lemma exact_fit_is_written :
  let w := ready quiet in
  let result :=
    MT4_OpenTrade scripted 5 (Some "EURUSD") 0 1.5%float 1.25%float 0%float 0%float
      None (Some out) 12 w in
  12 <= len (order_json 7) + 1 /\
  fst result = Done MT4_SUCCESS /\
  mem (snd result) out = order_json 7 /\
  mem w out = "old".
Proof. vm_compute. repeat split; discriminate. Qed.

(** On the path of the empty array the capacity is not compared with the
    text: a list with no records and a capacity of two ends in the
    invalid-parameter handler of [strcpy_s]. *)
Lemma empty_array_unchecked :
  let result := MT4_GetAllUsers scripted (Some out) 2 (ready quiet) in
  fst result = Fault /\ mem (snd result) out = empty.
Proof. vm_compute. split; reflexivity. Qed.

(** The same order with a capacity of eleven, one short of the exact
    fit. *)
Lemma too_small_is_refused_witness :
  exists w',
    api scripted
      (serialize (SerOpenTrade 5 (Some "EURUSD") 0 1.5%float 1.25%float 0%float 0%float None)
         out 11) (ready quiet)
    = (Done (Status MT4_ERROR_BUFFER_TOO_SMALL), w') /\
    mem w' = mem (ready quiet).
Proof.
  refine (proj1 (proj2 (too_small_is_refused scripted
            (SerOpenTrade 5 (Some "EURUSD") 0 1.5%float 1.25%float 0%float 0%float None)
            out 11 (ready quiet) _)) 12 _ _ _ _).
  - lia.
  - vm_compute. reflexivity.
  - vm_compute. discriminate.
  - vm_compute. discriminate.
Defined.

(** C3 fails in get_quote: the manager hands over a block of ticks, the
    quote does not fit, and the operation returns BufferTooSmall without
    freeing the block.  With room for the quote the block is freed once. *)
Lemma quote_too_small_keeps_ticks :
  let small := MT4_GetQuote scripted (Some "EURUSD") (Some out) 8 (ready ticking) in
  let roomy := MT4_GetQuote scripted (Some "EURUSD") (Some out) 200 (ready ticking) in
  fst small = Done MT4_ERROR_BUFFER_TOO_SMALL /\
  count_MemFree (addr one_tick) (trace (snd small)) = 0%nat /\
  fst roomy = Done MT4_SUCCESS /\
  count_MemFree (addr one_tick) (trace (snd roomy)) = 1%nat.
Proof. vm_compute. repeat split; reflexivity. Qed.

(** C4 as stated fails in disconnect: the manager's disconnect fails, the
    operation returns InternalError, and the last-error text is empty. *)
Lemma failed_disconnect_clears_error :
  let result := MT4_Disconnect scripted (ready stuck) in
  fst result = Done MT4_ERROR_INTERNAL /\
  g_lastError (globals (snd result)) = empty.
Proof. vm_compute. split; reflexivity. Qed.

(** Ping does not write the text when the manager answers: an earlier
    message stays. *)
Lemma ping_keeps_error :
  let w := snd (MT4_Connect scripted None (ready quiet)) in
  let result := MT4_Ping scripted w in
  fst result = Done MT4_SUCCESS /\
  g_lastError (globals (snd result)) = "Invalid server parameter".
Proof. vm_compute. split; reflexivity. Qed.

(** An open_order whose answer does not fit: BufferTooSmall with its
    message. *)
Lemma last_error_follows_status_witness :
  (MT4_ERROR_BUFFER_TOO_SMALL = MT4_SUCCESS ->
   g_lastError (globals (snd (api scripted
     (OpenTrade 5 (Some "EURUSD") 0 1.5%float 1.25%float 0%float 0%float None (Some out) 11)
     (ready quiet)))) = empty) /\
  (detected_locally MT4_ERROR_BUFFER_TOO_SMALL = true ->
   g_lastError (globals (snd (api scripted
     (OpenTrade 5 (Some "EURUSD") 0 1.5%float 1.25%float 0%float 0%float None (Some out) 11)
     (ready quiet)))) <> empty).
Proof.
  apply (last_error_follows_status scripted
           (OpenTrade 5 (Some "EURUSD") 0 1.5%float 1.25%float 0%float 0%float None
              (Some out) 11) (ready quiet));
    [reflexivity | vm_compute; reflexivity].
Defined.

(** C5 fails in get_quote: with a null symbol and no connection it asks the
    manager for the connection first and returns NotConnected; open_order
    with the same arguments returns InvalidParameter and asks nothing. *)
Lemma quote_checks_connection_first :
  let w := ready offline in
  let quote := MT4_GetQuote scripted None (Some out) 64 w in
  let open := MT4_OpenTrade scripted 5 None 0 1.5%float 1.25%float 0%float 0%float
                None (Some out) 64 w in
  fst quote = Done MT4_ERROR_NOT_CONNECTED /\
  trace (snd quote) = (trace w ++ [Ev (Mgr 2%positive IsConnected)])%list /\
  fst open = Done MT4_ERROR_INVALID_PARAMETER /\
  trace (snd open) = trace w.
Proof. vm_compute. repeat split; reflexivity. Qed.

(** C6 as stated fails on the empty address: it is not null, so it goes to
    the manager's connect, and the answer of the manager decides. *)
Lemma empty_address_reaches_manager :
  let w := ready quiet in
  let result := MT4_Connect scripted (Some empty) w in
  fst result = Done MT4_SUCCESS /\
  trace (snd result)
  = (trace w ++ [Ev (GetCurrentDirectoryA MAX_PATH);
                 Ev (Mgr 2%positive (WorkingDirectory "C:\\mt4"));
                 Ev (Sleep 100);
                 Ev (Mgr 2%positive (Connect empty))])%list /\
  existsb is_Connect (trace (snd result)) = true.
Proof. vm_compute. repeat split; reflexivity. Qed.

(** A null address, and the empty address, on an initialised session. *)
Lemma connect_guards_witness :
  (exists w',
      MT4_Connect scripted None (ready quiet) = (Done MT4_ERROR_INVALID_PARAMETER, w') /\
      trace w' = trace (ready quiet)) /\
  (exists after : list Event,
      trace (snd (MT4_Connect scripted (Some empty) (ready quiet)))
      = (trace (ready quiet)
         ++ [Ev (GetCurrentDirectoryA MAX_PATH)]
         ++ [Ev (Mgr 2%positive (WorkingDirectory "C:\\mt4"))]
         ++ [Ev (Sleep 100); Ev (Mgr 2%positive (Connect empty))]
         ++ after)%list /\
      (0 = RET_OK mt4_header ->
       fst (MT4_Connect scripted (Some empty) (ready quiet)) = Done MT4_SUCCESS /\
       after = []) /\
      (0 <> RET_OK mt4_header ->
       fst (MT4_Connect scripted (Some empty) (ready quiet)) <> Done MT4_SUCCESS /\
       after = [Ev (Mgr 2%positive (ErrorDescription 0))])).
Proof.
  split.
  - apply (proj1 (connect_guards scripted (ready quiet)) 2%positive); reflexivity.
  - apply (proj1 (proj2 (proj2 (connect_guards scripted (ready quiet))))
             2%positive empty (7, "C:\\mt4") quiet quiet quiet quiet 0);
      reflexivity.
Defined.

(** Order 77 on a manager that knows no order. *)
Lemma close_unknown_order_witness :
  exists (w' : World Script) (calls : list Event),
    MT4_CloseTrade scripted 77 0%float 0%float (ready no_orders)
    = (Done MT4_ERROR_INTERNAL, w') /\
    g_lastError (globals w') = "Trade not found" /\
    trace w' = (trace (ready no_orders) ++ calls)%list /\
    calls = [Ev (Mgr 2%positive IsConnected);
             Ev (Mgr 2%positive (TradeRecordGet 77 TradeRecord.zero))] /\
    existsb is_TradeTransaction calls = false.
Proof.
  apply (close_unknown_order scripted 2%positive 77 0%float 0%float (ready no_orders)
           1 2 TradeRecord.zero no_orders no_orders);
    first [reflexivity | vm_compute; discriminate].
Defined.

(** The example input in braces, on a connected session. *)
Lemma create_user_example_witness :
  exists w' : World Script,
    MT4_CreateUser scripted (Some ("{" ++ create_fragment ++ "}")) (Some out) 64
      (ready quiet) = (Done MT4_SUCCESS, w') /\
    mem w' out = "{" ++ q "success" ++ ":true," ++ q "login" ++ ":4242}" /\
    g_lastError (globals w') = empty /\
    trace w' = (trace (ready quiet)
                ++ [Ev (Mgr 2%positive IsConnected);
                    Ev (Mgr 2%positive (UserRecordNew (example_user empty)))])%list.
Proof.
  apply (proj2 (proj2 (create_user_example scripted)) 2%positive "{" "}" empty out 64
           (ready quiet) 1 (example_user empty) quiet quiet);
    first [reflexivity | vm_compute; lia | vm_compute; discriminate
          | vm_compute; reflexivity].
Defined.

(** C9 as stated fails on an input that holds the fragment after another
    login: the first member of the object is an object with a login of its
    own, 7; the wrapper reads the first login marker of the text, creates
    the account 7 and answers with login 7. *)
Lemma earlier_login_wins :
  let result := MT4_CreateUser scripted (Some nested_login) (Some out) 64 (ready quiet) in
  (exists pre post : string, nested_login = pre ++ create_fragment ++ post) /\
  fst result = Done MT4_SUCCESS /\
  mem (snd result) out = "{" ++ q "success" ++ ":true," ++ q "login" ++ ":7}" /\
  find "4242" 0 (mem (snd result) out) = None /\
  map UserRecord.login (created_users (trace (snd result))) = [7].
Proof.
  split.
  - exists ("{" ++ q "ref" ++ ":{" ++ q "login" ++ ":7},"), "}". reflexivity.
  - vm_compute. repeat split; reflexivity.
Qed.



(** Two histories that differ in the login of their open_order only. *)
Lemma open_trade_ignores_login_witness :
  let place login :=
    OpenTrade login (Some "EURUSD") 0 1.5%float 1.25%float 0%float 0%float None
      (Some out) 64 in
  let w := initial_world stale quiet in
  map snd (fst (run scripted [Initialize; place 5; GetLastError] w))
  = map snd (fst (run scripted [Initialize; place 6; GetLastError] w)) /\
  snd (run scripted [Initialize; place 5; GetLastError] w)
  = snd (run scripted [Initialize; place 6; GetLastError] w).
Proof.
  apply (proj2 (open_trade_ignores_login scripted)). reflexivity.
Defined.

(** ** The session over its lifetime *)

Section Lifetime.

Context {R : Type} (P : Platform R).

Lemma handle_guarded_step (c : ApiCall) (w w' : World R) (o : outcome Reply) :
  api P c w = (o, w') ->
  handle_guarded (globals w) ->
  handle_guarded (globals w').
Proof.
  intros H Hinv. open_world w. unfold handle_guarded in *.
  cbn [g_pManager g_pFactory g_initialized] in Hinv.
  destruct c; exec H; inversion H; subst; clear H;
    cbn [globals g_pManager g_pFactory g_initialized];
    intros Hlive;
    solve [ apply Hinv; exact Hlive
          | split; [discriminate | reflexivity]
          | exfalso; apply Hlive; reflexivity
          | exfalso; assert (Hflag : false = true)
              by (apply Hinv; first [exact Hlive | discriminate]);
            discriminate Hflag ].
Qed.

(** X1: in every world a history of calls reaches from the start of the
    process, the manager handle is live only while the factory is live and
    the session is marked initialised, whatever the calls answer, throw or
    fault. *)
Theorem handle_never_outlives_factory (mem0 : ptr -> string) (r : R)
    (calls : list ApiCall) :
  let s := globals (snd (run P calls (initial_world mem0 r))) in
  g_pManager s = None \/ (g_pFactory s <> None /\ g_initialized s = true).
Proof.
  assert (Hgen : forall (w : World R),
             handle_guarded (globals w) ->
             handle_guarded (globals (snd (run P calls w)))).
  { induction calls as [| c rest IH]; intros w Hinv; cbn [run].
    - exact Hinv.
    - destruct (api P c w) as [o w1] eqn:Hc.
      pose proof (handle_guarded_step c w w1 o Hc Hinv) as Hstep.
      specialize (IH w1 Hstep).
      destruct o as [a | e |]; [| | exact Hstep];
        destruct (run P rest w1) as [log w2]; exact IH. }
  intros s.
  assert (Hs : handle_guarded s).
  { apply Hgen. intros Hlive. exfalso. apply Hlive. reflexivity. }
  unfold handle_guarded in Hs.
  destruct (g_pManager s) as [m |]; [right; apply Hs; discriminate | left; reflexivity].
Qed.

(** X2: only initialize and shutdown touch the handles and the flags of the
    session: every other call leaves the manager, the factory, and the
    three flags as they were, whatever its outcome. *)
Theorem only_lifecycle_moves_session (c : ApiCall) (w w' : World R)
    (o : outcome Reply) :
  lifecycle c = false ->
  api P c w = (o, w') ->
  g_pManager (globals w') = g_pManager (globals w) /\
  g_pFactory (globals w') = g_pFactory (globals w) /\
  g_initialized (globals w') = g_initialized (globals w) /\
  g_bypassMode (globals w') = g_bypassMode (globals w) /\
  g_mockConnected (globals w') = g_mockConnected (globals w).
Proof.
  intros Hc H. open_world w.
  destruct c; try discriminate Hc; exec H; inversion H; subst; clear H;
    repeat split.
Qed.

(** X3: initialize on a session with no handles either succeeds, and then
    manager and factory are live, the session is initialised and the error
    text is empty, or returns InternalError with no handle left and the
    session not initialised. *)
Theorem initialize_all_or_nothing (w w' : World R) (code : Z) :
  g_initialized (globals w) = false ->
  g_pManager (globals w) = None ->
  g_pFactory (globals w) = None ->
  api P Initialize w = (Done (Status code), w') ->
  (code = MT4_SUCCESS /\
   g_pManager (globals w') <> None /\ g_pFactory (globals w') <> None /\
   g_initialized (globals w') = true /\ g_lastError (globals w') = empty) \/
  (code = MT4_ERROR_INTERNAL /\
   g_pManager (globals w') = None /\ g_pFactory (globals w') = None /\
   g_initialized (globals w') = false).
Proof.
  intros Hflag Hm Hf H. open_world w. subst.
  exec H; inversion H; subst; clear H;
    cbn [globals g_pManager g_pFactory g_initialized g_lastError];
    solve [ left; repeat split; discriminate
          | right; repeat split ].
Qed.

(** X4: an initialize that follows a successful one returns
    AlreadyInitialized, makes no call and leaves the first session as it
    is. *)
Theorem second_initialize_refused (w w1 : World R) :
  api P Initialize w = (Done (Status MT4_SUCCESS), w1) ->
  exists w2,
    api P Initialize w1 = (Done (Status MT4_ERROR_ALREADY_INITIALIZED), w2) /\
    trace w2 = trace w1 /\ remote w2 = remote w1 /\ mem w2 = mem w1 /\
    g_pManager (globals w2) = g_pManager (globals w1) /\
    g_pFactory (globals w2) = g_pFactory (globals w1) /\
    g_initialized (globals w2) = true /\
    g_lastError (globals w2) = "Already initialized".
Proof.
  intros H. open_world w.
  exec H; inversion H; subst; clear H;
    (eexists; split; [unfold_model; reflexivity | repeat split]).
Qed.

(** X5: a shutdown that returns has released the manager handle, if there
    was one, before it cleaned up and deleted the factory, if there was
    one, and has stopped the socket layer last; it leaves no handle, the
    session not initialised and the error text empty. *)
Theorem shutdown_teardown (w w' : World R) :
  api P Shutdown w = (Done Void, w') ->
  trace w'
  = (trace w
     ++ match g_pManager (globals w) with
        | Some m => [Ev (Mgr m Release)]
        | None => []
        end
     ++ match g_pFactory (globals w) with
        | Some f => [Ev (FactoryWinsockCleanup f); Ev (FactoryDelete f)]
        | None => []
        end
     ++ [Ev WSACleanup])%list /\
  g_pManager (globals w') = None /\
  g_pFactory (globals w') = None /\
  g_initialized (globals w') = false /\
  g_mockConnected (globals w') = false /\
  g_lastError (globals w') = empty /\
  mem w' = mem w.
Proof.
  intros H. open_world w.
  exec H; inversion H; subst; clear H;
    cbn [globals trace mem g_pManager g_pFactory g_initialized g_mockConnected
         g_lastError app];
    rewrite <- ?app_assoc; repeat split.
Qed.

(** X6: shutdown can be called again: after a shutdown that returned, the
    next one only stops the socket layer once more and leaves the session
    as the first one left it. *)
Theorem shutdown_twice (w w1 w2 : World R) (o : outcome Reply) :
  api P Shutdown w = (Done Void, w1) ->
  api P Shutdown w1 = (o, w2) ->
  trace w2 = (trace w1 ++ [Ev WSACleanup])%list /\
  globals w2 = globals w1 /\
  mem w2 = mem w1.
Proof.
  intros H1 H2. open_world w.
  exec H1; inversion H1; subst; clear H1;
    exec H2; inversion H2; subst; clear H2; repeat split.
Qed.

(** X7: initialize and shutdown undo each other: from the session a
    process starts with, a successful initialize followed by a shutdown
    that returns gives that session back and leaves the caller's memory
    alone. *)
Theorem initialize_shutdown_round_trip (w w1 w2 : World R) :
  globals w = initial_session ->
  api P Initialize w = (Done (Status MT4_SUCCESS), w1) ->
  api P Shutdown w1 = (Done Void, w2) ->
  globals w2 = initial_session /\ mem w2 = mem w.
Proof.
  intros Hstart H1 H2. destruct w as [g m0 r0 t0]. cbn [globals] in Hstart. subst g.
  unfold initial_session in H1.
  exec H1; inversion H1; subst; clear H1;
    exec H2; inversion H2; subst; clear H2; split; reflexivity.
Qed.

(** X8: no exception leaves an operation other than initialize and
    shutdown: whatever the manager throws, the call returns a status code
    (or the process faults). *)
Theorem exceptions_are_contained (c : ApiCall) (w w' : World R) (o : outcome Reply)
    (e : exn) :
  lifecycle c = false ->
  api P c w = (o, w') ->
  o <> Throw e.
Proof.
  intros Hc H. open_world w.
  destruct c; try discriminate Hc; exec H; inversion H; subst; clear H;
    discriminate.
Qed.

(** X9: is_connected answers 1 or 0 and never fails; it leaves the session,
    its error text included, and the caller's memory as they were, and in a
    session that is not initialised it answers 0 without asking the
    manager. *)
Theorem is_connected_is_safe (w w' : World R) (o : outcome Z) :
  MT4_IsConnected P w = (o, w') ->
  (o = Done 1 \/ o = Done 0 \/ o = Fault) /\
  globals w' = globals w /\ mem w' = mem w /\
  (g_initialized (globals w) = false -> o = Done 0 /\ trace w' = trace w).
Proof.
  intros H. open_world w.
  exec H; inversion H; subst; clear H;
    repeat match goal with
           | |- context [if ?b then _ else _] => destruct b
           end;
    (split; [auto | split; [reflexivity | split; [reflexivity |]]]);
    intros Hclosed; first [discriminate Hclosed | split; reflexivity].
Qed.

End Lifetime.

(** ** Guards and the caller's memory *)

Section Guards.

Context {R : Type} (P : Platform R).

(** X10: in an initialised session whose manager answers the connection
    check with zero, or throws in it, every operation that needs the
    connection returns NotConnected with a message; the check is the only
    call it makes, and the caller's memory is not touched.  (For every
    operation but get_quote the arguments are taken to be valid.) *)
Theorem not_connected_is_reported (c : ApiCall) (m : ptr) (w : World R)
    (answer : outcome Z) (r1 : R) :
  needs_connection c = true ->
  is_GetQuote c = true \/ invalid_arguments c = false ->
  g_initialized (globals w) = true ->
  g_pManager (globals w) = Some m ->
  oracle P (Mgr m IsConnected) (remote w) = (answer, r1) ->
  answer = Done 0 \/ (exists e, answer = Throw e) ->
  fst (api P c w) = Done (Status MT4_ERROR_NOT_CONNECTED) /\
  trace (snd (api P c w)) = (trace w ++ [Ev (Mgr m IsConnected)])%list /\
  mem (snd (api P c w)) = mem w /\
  g_lastError (globals (snd (api P c w))) <> empty.
Proof.
  intros Hc Hargs Hinit Hmgr Hconn Hanswer.
  destruct (api P c w) as [o w'] eqn:H. open_world w. subst.
  destruct Hanswer as [-> | [e ->]];
    (destruct c; try discriminate Hc;
     cbn [is_GetQuote invalid_arguments is_null] in Hargs;
     unfold_model_in H;
     repeat first [ rewrite Hconn in H; change (0 =? 0) with true in H;
                    cbv beta iota in H
                  | exec_step H ];
     try (destruct Hargs as [Hargs | Hargs]; discriminate Hargs);
     try (destruct Hargs as [Hargs | Hargs]; [discriminate Hargs |];
          cbn in Hargs; congruence);
     inversion H; subst; clear H; cbn [fst snd globals trace mem g_lastError];
     repeat split; discriminate).
Qed.

(** X11: in an initialised session every operation but get_quote answers a
    null pointer where one is required, or a capacity that is not
    positive, with InvalidParameter and a message, before it makes any
    call; the caller's memory is not touched. *)
Theorem arguments_checked_before_calls (c : ApiCall) (m : ptr) (w : World R) :
  invalid_arguments c = true ->
  is_GetQuote c = false ->
  g_initialized (globals w) = true ->
  g_pManager (globals w) = Some m ->
  fst (api P c w) = Done (Status MT4_ERROR_INVALID_PARAMETER) /\
  trace (snd (api P c w)) = trace w /\
  remote (snd (api P c w)) = remote w /\
  mem (snd (api P c w)) = mem w /\
  g_lastError (globals (snd (api P c w))) <> empty.
Proof.
  intros Hargs Hquote Hinit Hmgr.
  destruct (api P c w) as [o w'] eqn:H. open_world w. subst.
  destruct c; try discriminate Hargs; try discriminate Hquote;
    cbn [invalid_arguments is_null] in Hargs;
    exec H;
    try (cbn in Hargs; congruence);
    inversion H; subst; clear H; cbn [fst snd globals trace mem remote g_lastError];
    repeat split; discriminate.
Qed.

(** X13: a serialising operation that returns success has left in the
    buffer a text that is shorter than the capacity, so that the text and
    its terminator lie inside the buffer. *)
Theorem success_fits_buffer (s : Serializer) (buffer : ptr) (bufferSize : Z)
    (w : World R) :
  fst (api P (serialize s buffer bufferSize) w) = Done (Status MT4_SUCCESS) ->
  len (mem (snd (api P (serialize s buffer bufferSize) w)) buffer) < bufferSize.
Proof.
  destruct (api P (serialize s buffer bufferSize) w) as [o w'] eqn:H.
  cbn [fst snd]. intros ->. open_world w.
  destruct s; cbn [serialize] in H; exec H; inversion H; subst; clear H;
    cbn [mem]; rewrite store_same; apply Z.ltb_lt; assumption.
Qed.

End Guards.

(** ** Arrays of records *)

Ltac exec_knowing H :=
  unfold_model_in H;
  repeat first
    [ match goal with
      | E : oracle _ _ _ = _ |- _ => rewrite E in H; cbv beta iota in H
      end
    | exec_step H ].

Lemma append_assoc (a b c : string) : (a ++ b) ++ c = a ++ (b ++ c).
Proof. induction a as [| x a IH]; cbn; [reflexivity | now rewrite IH]. Qed.

Lemma append_empty_r (s : string) : s ++ empty = s.
Proof. induction s as [| x s IH]; cbn; [reflexivity | now rewrite IH]. Qed.

Lemma join_more {A : Type} (item : A -> string) (x : A) (l : list A) :
  join "," (map item (x :: l)) = item x ++ more_items item l.
Proof.
  revert x. induction l as [| y l IH]; intros x.
  - cbn. now rewrite append_empty_r.
  - change (join "," (map item (x :: y :: l)))
      with (item x ++ "," ++ join "," (map item (y :: l))).
    rewrite IH. reflexivity.
Qed.

Lemma skipn_nth_error {A : Type} (l : list A) (i : nat) (x : A) :
  nth_error l i = Some x -> skipn i l = x :: skipn (S i) l.
Proof.
  revert i. induction l as [| y l IH]; intros [| i] H; cbn in H; try discriminate H.
  - inversion H. reflexivity.
  - cbn [skipn]. rewrite (IH i H). reflexivity.
Qed.

Lemma json_items_more {A : Type} (item : A -> string) (records : list A) (n : nat) :
  forall (i : nat) (json : string),
    (S i + n <= List.length records)%nat ->
    json_items item records (S i) n json
    = Done (json ++ more_items item (firstn n (skipn (S i) records))).
Proof.
  induction n as [| n IH]; intros i json Hlen; cbn [json_items].
  - cbn. now rewrite append_empty_r.
  - destruct (nth_error records (S i)) as [x |] eqn:Hx.
    + rewrite (skipn_nth_error records (S i) x Hx). cbn [firstn more_items Nat.eqb].
      rewrite IH by lia. rewrite !append_assoc. reflexivity.
    + apply nth_error_None in Hx. lia.
Qed.

Lemma json_items_short {A : Type} (item : A -> string) (records : list A) (n : nat) :
  forall (i : nat) (json : string),
    (i <= List.length records)%nat ->
    (List.length records < i + n)%nat ->
    json_items item records i n json = Fault.
Proof.
  induction n as [| n IH]; intros i json Hi Hlen; [lia |]. cbn [json_items].
  destruct (nth_error records i) as [x |] eqn:Hx; [| reflexivity].
  assert (i < List.length records)%nat by (apply nth_error_Some; congruence).
  apply IH; lia.
Qed.

Lemma json_array_text {A : Type} (item : A -> string) (records : list A)
    (total limit : Z) :
  json_array item records total limit
  = if (Z.to_nat (Z.min total limit) <=? List.length records)%nat
    then Done (array_text item records (Z.to_nat (Z.min total limit)))
    else Fault.
Proof.
  unfold json_array, array_text.
  destruct (Z.to_nat (Z.min total limit)) as [| n] eqn:Hn.
  - reflexivity.
  - destruct (Nat.leb_spec (S n) (List.length records)) as [Hlen | Hlen].
    + destruct records as [| x rest]; [cbn in Hlen; lia |].
      cbn [json_items nth_error Nat.eqb].
      rewrite json_items_more by (cbn in Hlen |- *; lia).
      cbn [skipn firstn]. rewrite join_more. rewrite !append_assoc. reflexivity.
    + rewrite json_items_short by lia. reflexivity.
Qed.

(** X14: the loop that serialises a block writes, between brackets and with
    commas between them, the first min(total, limit) records of the block
    and no others, when the block holds that many; a block that holds
    fewer is read past its end. *)
Theorem json_array_spec {A : Type} (item : A -> string) (records : list A)
    (total limit : Z) :
  let n := Z.to_nat (Z.min total limit) in
  ((n <= List.length records)%nat ->
   json_array item records total limit
   = Done ("[" ++ join "," (map item (firstn n records)) ++ "]")) /\
  ((List.length records < n)%nat ->
   json_array item records total limit = Fault).
Proof.
  intros n. rewrite json_array_text. fold n. split; intros Hlen.
  - destruct (Nat.leb_spec n (List.length records)); [reflexivity | lia].
  - destruct (Nat.leb_spec n (List.length records)); [lia | reflexivity].
Qed.

Section Listing.

Context {R : Type} (P : Platform R).



(** X16: an operation that is handed a block by the manager (get user and
    the three listings) frees one block, and no more, whenever it returns
    BufferTooSmall or returns success with a text other than the empty
    array. *)
Theorem block_freed_once (s : Serializer) (buffer : ptr) (bufferSize : Z)
    (w : World R) (code : Z) :
  takes_block s = true ->
  fst (api P (serialize s buffer bufferSize) w) = Done (Status code) ->
  code = MT4_ERROR_BUFFER_TOO_SMALL \/
  (code = MT4_SUCCESS /\
   mem (snd (api P (serialize s buffer bufferSize) w)) buffer <> "[]") ->
  exists calls : list Event,
    trace (snd (api P (serialize s buffer bufferSize) w)) = (trace w ++ calls)%list /\
    frees calls = 1%nat.
Proof.
  intros Hs.
  destruct (api P (serialize s buffer bufferSize) w) as [o w'] eqn:H.
  cbn [fst snd]. intros -> Hcode. open_world w.
  destruct s; try discriminate Hs; cbn [serialize] in H;
    exec H; inversion H; subst; clear H; cbn [trace mem] in *;
    rewrite ?store_same in Hcode;
    try (destruct Hcode as [Hcode | [Hcode Htext]];
         first [discriminate Hcode | exfalso; apply Htext; reflexivity]);
    rewrite <- ?app_assoc; eexists; split; reflexivity.
Qed.

End Listing.

(** ** Quotes *)

Lemma find_symbol_text (symbol : string) (symbolsInfo : list SymbolInfo.t) (n : nat) :
  forall i : nat,
    (i <= List.length symbolsInfo)%nat ->
    find_symbol symbol symbolsInfo i n
    = match List.find (names symbol) (firstn n (skipn i symbolsInfo)) with
      | Some t => Done (Some t)
      | None => if (i + n <=? List.length symbolsInfo)%nat then Done None else Fault
      end.
Proof.
  induction n as [| n IH]; intros i Hi; cbn [find_symbol].
  - cbn. destruct (Nat.leb_spec (i + 0) (List.length symbolsInfo)); [reflexivity | lia].
  - destruct (nth_error symbolsInfo i) as [t |] eqn:Ht.
    + assert (i < List.length symbolsInfo)%nat by (apply nth_error_Some; congruence).
      rewrite (skipn_nth_error symbolsInfo i t Ht). cbn [firstn List.find].
      unfold names at 1.
      destruct (String.eqb (SymbolInfo.symbol t) symbol); [reflexivity |].
      rewrite IH by lia.
      replace (S i + n)%nat with (i + S n)%nat by lia. reflexivity.
    + apply nth_error_None in Ht.
      rewrite skipn_all2 by exact Ht. rewrite firstn_nil. cbn [List.find].
      destruct (Nat.leb_spec (i + S n) (List.length symbolsInfo)); [lia | reflexivity].
Qed.

(** X17: the scan for a symbol among the entries the manager reports as
    updated returns the first of the first [n] entries that carries the
    symbol, or none when no such entry carries it, as long as the manager
    filled in that many entries. *)
Theorem find_symbol_first_match (symbol : string) (symbolsInfo : list SymbolInfo.t)
    (n : nat) :
  (n <= List.length symbolsInfo)%nat ->
  find_symbol symbol symbolsInfo 0 n
  = Done (List.find (names symbol) (firstn n symbolsInfo)).
Proof.
  intros Hn. rewrite find_symbol_text by lia. cbn [skipn Nat.add].
  destruct (List.find (names symbol) (firstn n symbolsInfo)); [reflexivity |].
  destruct (Nat.leb_spec n (List.length symbolsInfo)); [reflexivity | lia].
Qed.

Section Quotes.

Context {R : Type} (P : Platform R).

Ltac exec_quote H :=
  unfold_model_in H;
  repeat first
    [ match goal with
      | E : oracle _ _ _ = _ |- _ =>
          rewrite E in H; cbv beta iota in H; cbn [fst snd] in H
      | E : find_symbol _ _ _ _ = _ |- _ =>
          rewrite E in H; cbv beta iota in H
      end
    | exec_step H ].

(** X18: get_quote for a symbol with no price from any source (no priced
    entry among the updated symbols, no tick, and a failed symbol lookup)
    returns InternalError with the text "No price data available for
    symbol" and writes nothing: no quote of zeros. *)
Theorem quote_without_price (m : ptr) (symbol : string) (buffer : ptr)
    (bufferSize : Z) (w : World R) (connected updated total code : Z)
    (symbolsInfo : list SymbolInfo.t) (target : option SymbolInfo.t)
    (ticks : option (block TickInfo.t)) (si : SymbolInfo.t) (r1 r2 r3 r4 : R) :
  g_initialized (globals w) = true ->
  g_pManager (globals w) = Some m ->
  0 < bufferSize ->
  oracle P (Mgr m IsConnected) (remote w) = (Done connected, r1) ->
  connected <> 0 ->
  oracle P (Mgr m (SymbolInfoUpdated 128)) r1 = (Done (updated, symbolsInfo), r2) ->
  find_symbol symbol symbolsInfo 0 (Z.to_nat updated) = Done target ->
  match target with Some t => priced t | None => false end = false ->
  oracle P (Mgr m (TickInfoLast symbol 0)) r2 = (Done (ticks, total), r3) ->
  ticks = None \/ total = 0 ->
  oracle P (Mgr m (SymbolInfoGet symbol SymbolInfo.zero)) r3 = (Done (code, si), r4) ->
  code <> RET_OK (hdr P) ->
  let result := MT4_GetQuote P (Some symbol) (Some buffer) bufferSize w in
  fst result = Done MT4_ERROR_INTERNAL /\
  g_lastError (globals (snd result)) = "No price data available for symbol" /\
  mem (snd result) = mem w.
Proof.
  intros Hinit Hmgr Hcap Hconn Hup Hupdated Hfind Hprice Hticks Hnone Hget Hcode result.
  subst result.
  destruct (MT4_GetQuote P (Some symbol) (Some buffer) bufferSize w) as [o w'] eqn:H.
  open_world w. subst.
  apply Z.eqb_neq in Hup, Hcode. apply Z.leb_gt in Hcap.
  unfold priced in Hprice.
  exec_quote H; try congruence;
    try (destruct Hnone as [Hnone | Hnone]; [discriminate Hnone | subst; discriminate]);
    inversion H; subst; clear H; repeat split.
Qed.

(** X19: when the scan of the entries the manager reports as updated stops
    at an entry, the first one that names the symbol, and that entry has a
    positive bid or ask, get_quote answers from it: it asks for no tick and
    no further symbol data, and writes the quote of that entry when it
    fits. *)
Theorem quote_prefers_updated (m : ptr) (symbol : string) (buffer : ptr)
    (bufferSize : Z) (w : World R) (connected updated : Z)
    (symbolsInfo : list SymbolInfo.t) (t : SymbolInfo.t) (r1 r2 : R) :
  g_initialized (globals w) = true ->
  g_pManager (globals w) = Some m ->
  oracle P (Mgr m IsConnected) (remote w) = (Done connected, r1) ->
  connected <> 0 ->
  oracle P (Mgr m (SymbolInfoUpdated 128)) r1 = (Done (updated, symbolsInfo), r2) ->
  find_symbol symbol symbolsInfo 0 (Z.to_nat updated) = Done (Some t) ->
  priced t = true ->
  let text := quote_json P symbol (SymbolInfo.bid t) (SymbolInfo.ask t)
                (SymbolInfo.spread t) (SymbolInfo.digits t) (SymbolInfo.lasttime t) in
  len text < bufferSize ->
  let result := MT4_GetQuote P (Some symbol) (Some buffer) bufferSize w in
  fst result = Done MT4_SUCCESS /\
  mem (snd result) buffer = text /\
  g_lastError (globals (snd result)) = empty /\
  trace (snd result)
  = (trace w ++ [Ev (Mgr m IsConnected); Ev (Mgr m (SymbolInfoUpdated 128))])%list.
Proof.
  intros Hinit Hmgr Hconn Hup Hupdated Hfind Hprice text Hfits result.
  subst result text.
  destruct (MT4_GetQuote P (Some symbol) (Some buffer) bufferSize w) as [o w'] eqn:H.
  open_world w. subst.
  apply Z.eqb_neq in Hup. unfold priced in Hprice.
  assert (Hcap : (bufferSize <=? 0) = false).
  { apply Z.leb_gt. unfold len in Hfits. lia. }
  pose proof (proj2 (Z.leb_gt _ _) Hfits) as Hcheck.
  pose proof (proj2 (Z.ltb_lt _ _) Hfits) as Hcopy.
  exec_quote H; try congruence;
    inversion H; subst; clear H; cbn [fst snd globals mem trace g_lastError];
    rewrite ?store_same, <- ?app_assoc; repeat split.
Qed.

End Quotes.

(** ** Requests built from the caller's arguments *)

Lemma truncate_length (n : nat) (s : string) : (String.length (truncate n s) <= n)%nat.
Proof.
  unfold truncate. revert s. induction n as [| n IH]; intros [| c s]; cbn; try lia.
  specialize (IH s). lia.
Qed.

Lemma truncate_length_min (n : nat) (s : string) :
  String.length (truncate n s) = Nat.min n (String.length s).
Proof.
  unfold truncate. revert s. induction n as [| n IH]; intros [| c s]; cbn; try reflexivity.
  now rewrite IH.
Qed.

Lemma truncate_prefix (n : nat) (s : string) : String.prefix (truncate n s) s = true.
Proof.
  unfold truncate. revert s. induction n as [| n IH]; intros [| c s]; cbn; try reflexivity.
  destruct (ascii_dec c c); [apply IH | contradiction].
Qed.

Lemma strcpy_field_done (size : nat) (src v : string) :
  strcpy_field size src = Done v -> v = src /\ (String.length src < size)%nat.
Proof.
  unfold strcpy_field.
  destruct (Nat.ltb_spec (String.length src) size) as [Hlt | Hge]; intros Hcopy;
    inversion Hcopy; subst; auto.
Qed.

Ltac user_record :=
  cbv beta iota delta
    [UserRecord.set_login UserRecord.set_password UserRecord.set_group
     UserRecord.set_name UserRecord.set_enable UserRecord.set_leverage
     UserRecord.set_enable_change_password UserRecord.set_email UserRecord.zero
     UserRecord.login UserRecord.group UserRecord.password UserRecord.enable
     UserRecord.enable_change_password UserRecord.name UserRecord.email
     UserRecord.leverage UserRecord.balance UserRecord.credit].

Section Requests.

Context {R : Type} (P : Platform R).

(** X20: create_account hands the manager one record at most, and in it the
    account is enabled, may change its password, has leverage 100, no
    e-mail and no money, whatever the input text says. *)
Theorem new_user_has_defaults (jsonData : option string) (buffer : option ptr)
    (bufferSize : Z) (w : World R) :
  exists calls : list Event,
    trace (snd (MT4_CreateUser P jsonData buffer bufferSize w))
    = (trace w ++ calls)%list /\
    (List.length (created_users calls) <= 1)%nat /\
    Forall new_user_defaults (created_users calls).
Proof.
  destruct (MT4_CreateUser P jsonData buffer bufferSize w) as [o w'] eqn:H.
  open_world w.
  exec H; inversion H; subst; clear H; cbn [snd trace];
    rewrite <- ?app_assoc;
    first [ exists []; split; [symmetry; apply app_nil_r | split; [cbn; lia | constructor]]
          | eexists; split; [reflexivity |]; cbn; split; [lia |];
            repeat constructor;
            match goal with
            | |- context [match find ?a ?b ?c with _ => _ end] =>
                destruct (find a b c); reflexivity
            end ].
Qed.

(** X21: update_account changes name, e-mail and group at most: the record
    it hands back to the manager has the login, the password, the enabled
    flags, the leverage and the money of the record it fetched, and it
    creates no account. *)
Theorem update_keeps_account (m : ptr) (login : Z) (jsonData : option string)
    (w : World R) (connected code : Z) (user : UserRecord.t) (r1 r2 : R) :
  g_initialized (globals w) = true ->
  g_pManager (globals w) = Some m ->
  oracle P (Mgr m IsConnected) (remote w) = (Done connected, r1) ->
  oracle P (Mgr m (UserRecordGet login UserRecord.zero)) r1 = (Done (code, user), r2) ->
  exists calls : list Event,
    trace (snd (MT4_UpdateUser P login jsonData w)) = (trace w ++ calls)%list /\
    Forall (same_account user) (updated_users calls) /\
    created_users calls = [].
Proof.
  intros Hinit Hmgr Hconn Hget.
  destruct (MT4_UpdateUser P login jsonData w) as [o w'] eqn:H.
  open_world w. subst.
  exec_knowing H; inversion H; subst; clear H; cbn [snd trace];
    rewrite <- ?app_assoc;
    first [ exists []; split; [symmetry; apply app_nil_r | split; [constructor | reflexivity]]
          | eexists; split; [reflexivity |]; cbn; split; [| reflexivity];
            repeat constructor ].
Qed.

(** X22: delete_account is a soft delete: what it hands to the manager is
    the record it fetched with the enabled flag cleared and nothing else
    changed, once at most, and only when the fetch succeeded. *)
Theorem delete_only_disables (m : ptr) (login : Z) (w : World R)
    (connected code : Z) (user : UserRecord.t) (r1 r2 : R) :
  g_initialized (globals w) = true ->
  g_pManager (globals w) = Some m ->
  oracle P (Mgr m IsConnected) (remote w) = (Done connected, r1) ->
  oracle P (Mgr m (UserRecordGet login UserRecord.zero)) r1 = (Done (code, user), r2) ->
  exists calls : list Event,
    trace (snd (MT4_DeleteUser P login w)) = (trace w ++ calls)%list /\
    (updated_users calls = [] \/
     (code = RET_OK (hdr P) /\ updated_users calls = [UserRecord.set_enable 0 user])).
Proof.
  intros Hinit Hmgr Hconn Hget.
  destruct (MT4_DeleteUser P login w) as [o w'] eqn:H.
  open_world w. subst.
  exec_knowing H; inversion H; subst; clear H; cbn [snd trace];
    rewrite <- ?app_assoc;
    first [ exists []; split; [symmetry; apply app_nil_r | left; reflexivity]
          | eexists; split; [reflexivity |]; cbn;
            first [ left; reflexivity
                  | right; split; [| reflexivity];
                    match goal with
                    | E : (fst _ =? _) = true |- _ => cbn [fst] in E; apply Z.eqb_eq, E
                    end ] ].
Qed.

End Requests.

Section TradeRequests.

Context {R : Type} (P : Platform R).

(** X23: open_order sends the manager one transaction at most, built from
    its arguments alone: type and command from the command code, the
    symbol as given and fitting its field, the volume as lots times one
    hundred cut to an integer, the prices as given, order number zero, and
    a comment that is the start of the given one and fits its field. *)
Theorem open_request_from_arguments (login : Z) (symbol : string) (cmd : Z)
    (volume price stoploss takeprofit : double) (comment : option string)
    (buffer : option ptr) (bufferSize : Z) (w : World R) :
  exists calls : list Event,
    trace (snd (MT4_OpenTrade P login (Some symbol) cmd volume price stoploss
                  takeprofit comment buffer bufferSize w))
    = (trace w ++ calls)%list /\
    (List.length (transactions calls) <= 1)%nat /\
    Forall (open_request_of (hdr P) symbol cmd volume price stoploss takeprofit comment)
      (transactions calls).
Proof.
  destruct (MT4_OpenTrade P login (Some symbol) cmd volume price stoploss takeprofit
              comment buffer bufferSize w) as [o w'] eqn:H.
  open_world w.
  exec H; inversion H; subst; clear H; cbn [snd trace];
    rewrite <- ?app_assoc;
    first [ exists []; split; [symmetry; apply app_nil_r | split; [cbn; lia | apply Forall_nil]]
          | eexists; split; [reflexivity |]; cbn; split; [lia |]; apply Forall_nil
          | eexists; split; [reflexivity |]; cbn; split; [lia |];
            match goal with
            | E : strcpy_field _ _ = Done _ |- _ =>
                apply strcpy_field_done in E; destruct E as [-> Hfits]
            end;
            apply Forall_cons; [| apply Forall_nil];
            unfold open_request_of; cbn;
            repeat (split; [first [reflexivity | exact Hfits] |]);
            destruct comment as [text |]; cbn;
            first [ split; [apply truncate_length | apply truncate_prefix]
                  | split; [lia | reflexivity] ] ].
Qed.

(** X24: close_order sends one transaction at most, and only for an order
    the manager found: a close-by request with the buy command, whatever
    the side of the order, naming the order twice, with the order's symbol;
    lots and price are taken from the caller when positive and from the
    order otherwise. *)
Theorem close_request_from_order (m : ptr) (order : Z) (lots price : double)
    (w : World R) (connected code : Z) (found : TradeRecord.t) (r1 r2 : R) :
  g_initialized (globals w) = true ->
  g_pManager (globals w) = Some m ->
  oracle P (Mgr m IsConnected) (remote w) = (Done connected, r1) ->
  oracle P (Mgr m (TradeRecordGet order TradeRecord.zero)) r1
    = (Done (code, found), r2) ->
  exists calls : list Event,
    trace (snd (MT4_CloseTrade P order lots price w)) = (trace w ++ calls)%list /\
    (transactions calls = [] \/
     (code = RET_OK (hdr P) /\
      exists t, transactions calls = [t] /\
                close_request_of (hdr P) order lots price found t)).
Proof.
  intros Hinit Hmgr Hconn Hget.
  destruct (MT4_CloseTrade P order lots price w) as [o w'] eqn:H.
  open_world w. subst.
  exec_knowing H; inversion H; subst; clear H; cbn [snd trace];
    rewrite <- ?app_assoc;
    first [ exists []; split; [symmetry; apply app_nil_r | left; reflexivity]
          | eexists; split; [reflexivity |]; cbn;
            first [ left; reflexivity
                  | right;
                    match goal with
                    | E : strcpy_field _ _ = Done _ |- _ =>
                        apply strcpy_field_done in E; destruct E as [-> Hfits]
                    end;
                    split;
                    [ match goal with
                      | E : (fst _ =? _) = true |- _ =>
                          cbn [fst] in E; apply Z.eqb_eq, E
                      end
                    | eexists; split; [reflexivity |];
                      unfold close_request_of; cbn; repeat split ] ] ].
Qed.

(** X25: connect hands the manager one address at most: the start of the
    address it was given, all of it up to 255 characters and the first 255
    beyond that. *)
Theorem connect_passes_address (server : string) (w : World R) :
  exists calls : list Event,
    trace (snd (MT4_Connect P (Some server) w)) = (trace w ++ calls)%list /\
    (List.length (connects calls) <= 1)%nat /\
    Forall (fun sent => String.prefix sent server = true /\
                        String.length sent = Nat.min 255 (String.length server))
      (connects calls).
Proof.
  destruct (MT4_Connect P (Some server) w) as [o w'] eqn:H.
  open_world w.
  exec H; inversion H; subst; clear H; cbn [snd trace];
    rewrite <- ?app_assoc;
    first [ exists []; split; [symmetry; apply app_nil_r | split; [cbn; lia | apply Forall_nil]]
          | eexists; split; [reflexivity |]; cbn; split; [lia |]; apply Forall_nil
          | eexists; split; [reflexivity |]; cbn; split; [lia |];
            apply Forall_cons; [| apply Forall_nil];
            split; [apply truncate_prefix | apply truncate_length_min] ].
Qed.

End TradeRequests.

(** ** Values of the field extractor *)

Lemma prefix_dq (c : ascii) (r r' : string) :
  String.prefix dq (String c r) = String.prefix dq (String c r').
Proof.
  unfold dq. cbn [String.prefix].
  destruct (ascii_dec (ascii_of_nat 34) c); [destruct r, r'; reflexivity | reflexivity].
Qed.

Lemma index_dq_substring (s : string) :
  forall n e : nat,
    String.index n dq s = Some e ->
    String.index 0 dq (String.substring n (e - n) s) = None.
Proof.
  induction s as [| c r IH]; intros n e H.
  - destruct n; cbn in H; discriminate H.
  - destruct n as [| n].
    + cbn [String.index] in H.
      destruct (String.prefix dq (String c r)) eqn:Hc.
      * inversion H; subst. reflexivity.
      * destruct (String.index 0 dq r) as [k |] eqn:Hk; [| discriminate H].
        inversion H; subst. cbn [Nat.sub String.substring].
        cbn [String.index].
        rewrite (prefix_dq c (String.substring 0 k r) r), Hc.
        specialize (IH 0%nat k Hk). rewrite Nat.sub_0_r in IH. rewrite IH. reflexivity.
    + cbn [String.index] in H.
      destruct (String.index n dq r) as [k |] eqn:Hk; [| discriminate H].
      inversion H; subst. cbn [Nat.sub String.substring]. apply (IH n k Hk).
Qed.

(** X26: the field extractor either leaves a text field as it was, or
    replaces it by a value without a double quote that fits the field with
    its terminator; a value too long for the field is not cut but ends the
    process. *)
Theorem extracted_value_fits (json marker : string) (offset size : nat)
    (current : string) :
  match extract_text json marker offset size current with
  | Done v => v = current \/ (has_quote v = false /\ (String.length v < size)%nat)
  | Throw _ => False
  | Fault =>
      exists pos e : nat,
        find marker 0 json = Some pos /\ find dq (pos + offset) json = Some e /\
        (size <= e - pos - offset)%nat
  end.
Proof.
  unfold extract_text.
  destruct (find marker 0 json) as [pos |] eqn:Hpos; [| left; reflexivity].
  destruct (find dq (pos + offset) json) as [e |] eqn:He; [| left; reflexivity].
  unfold find in He. pose proof (index_dq_substring json _ _ He) as Hq.
  assert (Hlen : (String.length (substr (pos + offset) (e - pos - offset) json)
                  <= e - pos - offset)%nat).
  { unfold substr. generalize (pos + offset)%nat (e - pos - offset)%nat json.
    intros a b s. revert a b.
    induction s as [| c s IH]; intros [| a] [| b]; cbn; try lia.
    - specialize (IH 0%nat b). cbn in IH. destruct s; cbn in *; lia.
    - apply (IH a 0%nat).
    - apply (IH a (S b)). }
  unfold strcpy_field.
  destruct (Nat.ltb_spec (String.length (substr (pos + offset) (e - pos - offset) json))
              size) as [Hfit | Hlong].
  - right. split; [| exact Hfit].
    unfold has_quote, substr.
    replace (e - pos - offset)%nat with (e - (pos + offset))%nat by lia.
    rewrite Hq. reflexivity.
  - exists pos, e. repeat split; try assumption. lia.
Qed.

(** ** Numbers in texts *)

Lemma digits_value_uint (d : Decimal.uint) :
  forall (rest : string) (acc : Z),
    digits_value (NilEmpty.string_of_uint d ++ rest) acc
    = digits_value rest (uint_value d acc).
Proof.
  induction d; intros rest acc;
    cbn [NilEmpty.string_of_uint append digits_value uint_value];
    [reflexivity | ..];
    match goal with
    | |- context [digit_of ?c] =>
        let v := eval vm_compute in (digit_of c) in change (digit_of c) with v
    end;
    cbv beta iota; apply IHd.
Qed.

Lemma digits_value_stop (rest : string) (acc : Z) :
  no_digit_ahead rest -> digits_value rest acc = acc.
Proof.
  destruct rest as [| c r]; cbn [no_digit_ahead digits_value]; intros H;
    [reflexivity | now rewrite H].
Qed.

Lemma uint_value_acc (d : Decimal.uint) :
  forall acc : positive, uint_value d (Zpos acc) = Zpos (Pos.of_uint_acc d acc).
Proof.
  induction d; intros acc; cbn [uint_value Pos.of_uint_acc];
    [reflexivity | ..];
    rewrite <- IHd; f_equal; lia.
Qed.

Lemma uint_value_0 (d : Decimal.uint) : uint_value d 0 = Z.of_N (Pos.of_uint d).
Proof.
  induction d; cbn [uint_value Pos.of_uint];
    [reflexivity | exact IHd | ..];
    (change (0 * 10 + 1) with 1 || change (0 * 10 + 2) with 2
     || change (0 * 10 + 3) with 3 || change (0 * 10 + 4) with 4
     || change (0 * 10 + 5) with 5 || change (0 * 10 + 6) with 6
     || change (0 * 10 + 7) with 7 || change (0 * 10 + 8) with 8
     || change (0 * 10 + 9) with 9);
    rewrite uint_value_acc; reflexivity.
Qed.

Lemma atoi_numeral (d : Decimal.uint) (rest : string) :
  d <> Decimal.Nil ->
  atoi (NilEmpty.string_of_uint d ++ rest)
  = clamp_int (digits_value (NilEmpty.string_of_uint d ++ rest) 0).
Proof.
  intros Hd. destruct d; [contradiction | ..]; reflexivity.
Qed.

Lemma show_int_pos (p : positive) :
  show_int (Zpos p) = NilEmpty.string_of_uint (Pos.to_uint p).
Proof.
  unfold show_int. cbn [Z.to_int NilZero.string_of_int].
  pose proof (DecimalPos.Unsigned.to_uint_nonnil p) as Hp.
  unfold NilZero.string_of_uint. destruct (Pos.to_uint p); [contradiction | ..];
    reflexivity.
Qed.

Lemma show_int_neg (p : positive) :
  show_int (Zneg p)
  = String "-"%char (NilEmpty.string_of_uint (Pos.to_uint p)).
Proof.
  unfold show_int. cbn [Z.to_int NilZero.string_of_int].
  pose proof (DecimalPos.Unsigned.to_uint_nonnil p) as Hp.
  unfold NilZero.string_of_uint. destruct (Pos.to_uint p); [contradiction | ..];
    reflexivity.
Qed.

(** X27: a number the wrapper prints is read back by its own number
    reader: for every [int] value, the decimal text that the serialiser
    writes for it, followed by anything that does not go on with a digit,
    is parsed to the same value. *)
Theorem atoi_reads_show_int (z : Z) (rest : string) :
  INT_MIN <= z <= INT_MAX ->
  no_digit_ahead rest ->
  atoi (show_int z ++ rest) = z.
Proof.
  intros Hrange Hrest.
  assert (Hclamp : clamp_int z = z).
  { unfold clamp_int.
    destruct (Z.ltb_spec z INT_MIN); [lia |].
    destruct (Z.ltb_spec INT_MAX z); [lia | reflexivity]. }
  destruct z as [| p | p].
  - change (show_int 0 ++ rest) with (String "0"%char rest).
    unfold atoi. cbn [skip_spaces].
    change (is_space "0"%char) with false. cbv beta iota.
    change (Ascii.eqb "0"%char "-"%char) with false.
    change (Ascii.eqb "0"%char "+"%char) with false. cbv beta iota.
    cbn [digits_value]. change (digit_of "0"%char) with (Some 0). cbv beta iota.
    rewrite digits_value_stop by exact Hrest. reflexivity.
  - rewrite show_int_pos.
    rewrite atoi_numeral by apply DecimalPos.Unsigned.to_uint_nonnil.
    rewrite digits_value_uint, digits_value_stop by exact Hrest.
    rewrite uint_value_0, DecimalPos.Unsigned.of_to. exact Hclamp.
  - rewrite show_int_neg.
    change (atoi (String "-"%char (NilEmpty.string_of_uint (Pos.to_uint p))
                  ++ rest))
      with (clamp_int (- digits_value
                           (NilEmpty.string_of_uint (Pos.to_uint p) ++ rest)
                           0)).
    rewrite digits_value_uint, digits_value_stop by exact Hrest.
    rewrite uint_value_0, DecimalPos.Unsigned.of_to. exact Hclamp.
Qed.

Section EmptyAnswers.

Context {R : Type} (P : Platform R).

Ltac empty_array H Hnone Hcap :=
  unfold no_records in Hnone; cbn [fst snd] in Hnone;
  exec_knowing H;
  try (destruct Hnone as [Hnone | Hnone];
       [ cbn [fst] in *; congruence
       | match goal with
         | E : (0 <? snd _) = true |- _ => cbn [snd] in E; apply Z.ltb_lt in E; lia
         end ]);
  try (match goal with
       | E : (_ <=? 0) = true |- _ => apply Z.leb_le in E; lia
       end);
  inversion H; subst; clear H;
  unfold writes_empty_array; cbn [fst snd globals mem trace g_lastError];
  rewrite ?store_same, <- ?app_assoc;
  repeat match goal with
         | E : (len "[]" <? _) = true |- _ =>
             apply Z.ltb_lt in E; change (len "[]") with 2 in E
         | E : (len "[]" <? _) = false |- _ =>
             apply Z.ltb_ge in E; change (len "[]") with 2 in E
         end;
  (split; [reflexivity | split; intros Hroom; first [lia | repeat split]]).

(** X28: a listing whose request the manager answers without records (no
    block, or a count that is not positive) writes the empty array [[]]
    and returns success when the capacity is three or more, making no
    other call; with a capacity of one or two the copy of the two brackets
    ends the process instead. *)
Theorem empty_listing (m : ptr) (buffer : ptr) (bufferSize : Z) (w : World R) :
  g_initialized (globals w) = true ->
  g_pManager (globals w) = Some m ->
  0 < bufferSize ->
  (forall (reply : option (block UserRecord.t) * Z) (r1 : R),
      oracle P (Mgr m (UsersRequest 0)) (remote w) = (Done reply, r1) ->
      no_records reply ->
      writes_empty_array w buffer bufferSize [Ev (Mgr m (UsersRequest 0))]
        (MT4_GetAllUsers P (Some buffer) bufferSize w)) /\
  (forall (login : Z) (reply : option (block TradeRecord.t) * Z) (r1 : R),
      login <= 0 ->
      oracle P (Mgr m (TradesRequest 0)) (remote w) = (Done reply, r1) ->
      no_records reply ->
      writes_empty_array w buffer bufferSize [Ev (Mgr m (TradesRequest 0))]
        (MT4_GetTrades P login (Some buffer) bufferSize w)) /\
  (forall (refreshed : Z) (reply : option (block ConSymbol.t) * Z) (r1 r2 : R),
      oracle P (Mgr m SymbolsRefresh) (remote w) = (Done refreshed, r1) ->
      oracle P (Mgr m (SymbolsGetAll 0)) r1 = (Done reply, r2) ->
      no_records reply ->
      writes_empty_array w buffer bufferSize
        [Ev (Mgr m SymbolsRefresh); Ev (Mgr m (SymbolsGetAll 0))]
        (MT4_GetSymbols P (Some buffer) bufferSize w)).
Proof.
  intros Hinit Hmgr Hcap. open_world w. subst. split; [| split].
  - intros [blk total] r1 Hreq Hnone.
    destruct (MT4_GetAllUsers P (Some buffer) bufferSize _) as [o w'] eqn:H.
    empty_array H Hnone Hcap.
  - intros login [blk total] r1 Hlogin Hreq Hnone.
    destruct (MT4_GetTrades P login (Some buffer) bufferSize _) as [o w'] eqn:H.
    assert (Hall : (0 <? login) = false) by (apply Z.ltb_ge; exact Hlogin).
    unfold_model_in H. rewrite Hall in H. cbv beta iota in H.
    empty_array H Hnone Hcap.
  - intros refreshed [blk total] r1 r2 Hrefresh Hreq Hnone.
    destruct (MT4_GetSymbols P (Some buffer) bufferSize _) as [o w'] eqn:H.
    empty_array H Hnone Hcap.
Qed.

(** X29: get_account answers from the first record of the block the
    manager returns: it writes the text of that record when it fits, frees
    the block and returns success; a reply without records gives
    InternalError with the text "User not found" and writes nothing. *)
Theorem user_info_from_first_record (m : ptr) (login : Z) (buffer : ptr)
    (bufferSize : Z) (w : World R) (reply : option (block UserRecord.t) * Z) (r1 : R) :
  g_initialized (globals w) = true ->
  g_pManager (globals w) = Some m ->
  0 < bufferSize ->
  oracle P (Mgr m (UserRecordsRequest [login] 0)) (remote w) = (Done reply, r1) ->
  let result := MT4_GetUserInfo P login (Some buffer) bufferSize w in
  (no_records reply ->
   fst result = Done MT4_ERROR_INTERNAL /\
   g_lastError (globals (snd result)) = "User not found" /\
   mem (snd result) = mem w /\
   trace (snd result) = (trace w ++ [Ev (Mgr m (UserRecordsRequest [login] 0))])%list) /\
  (forall (users : block UserRecord.t) (first : UserRecord.t)
          (others : list UserRecord.t) (freed : unit) (r2 : R),
      fst reply = Some users ->
      0 < snd reply ->
      cells users = first :: others ->
      len (user_info_json P first) < bufferSize ->
      oracle P (Mgr m (MemFree (addr users))) r1 = (Done freed, r2) ->
      fst result = Done MT4_SUCCESS /\
      mem (snd result) buffer = user_info_json P first /\
      g_lastError (globals (snd result)) = empty /\
      trace (snd result)
      = (trace w ++ [Ev (Mgr m (UserRecordsRequest [login] 0));
                     Ev (Mgr m (MemFree (addr users)))])%list).
Proof.
  intros Hinit Hmgr Hcap Hreq result. subst result.
  destruct (MT4_GetUserInfo P login (Some buffer) bufferSize w) as [o w'] eqn:H.
  open_world w. subst. apply Z.leb_gt in Hcap. destruct reply as [blk total].
  split.
  - intros Hnone. unfold no_records in Hnone. cbn [fst snd] in Hnone.
    unfold_model_in H. rewrite Hcap in H. cbv beta iota in H.
    rewrite Hreq in H. cbv beta iota in H. cbn [fst snd] in H.
    destruct Hnone as [-> | Hnone].
    + cbv beta iota in H. inversion H; subst; clear H. repeat split.
    + apply Z.ltb_ge in Hnone. rewrite Hnone in H.
      destruct blk; cbv beta iota in H; inversion H; subst; clear H; repeat split.
  - intros users first others freed r2 Hblk Htotal Hcells Hfits Hfree.
    cbn [fst snd] in Hblk, Htotal. subst blk.
    apply Z.ltb_lt in Htotal.
    pose proof (proj2 (Z.leb_gt _ _) Hfits) as Hcheck.
    pose proof (proj2 (Z.ltb_lt _ _) Hfits) as Hcopy.
    unfold_model_in H. rewrite Hcap in H. cbv beta iota in H.
    rewrite Hreq in H. cbv beta iota in H. cbn [fst snd] in H.
    rewrite Htotal, Hcells in H. cbn [nth_error] in H. cbv beta iota in H.
    rewrite Hcheck in H. cbv beta iota in H. rewrite Hcopy in H. cbv beta iota in H.
    rewrite Hfree in H. cbv beta iota in H.
    inversion H; subst; clear H. cbn [fst snd globals mem trace g_lastError].
    rewrite store_same, <- app_assoc. repeat split.
Qed.

Lemma session_frame (c : ApiCall) (w w' : World R) (o : outcome Reply) :
  lifecycle c = false ->
  api P c w = (o, w') ->
  g_pManager (globals w') = g_pManager (globals w) /\
  g_initialized (globals w') = g_initialized (globals w).
Proof.
  intros Hc H. open_world w.
  destruct c; try discriminate Hc; exec H; inversion H; subst; clear H; split; reflexivity.
Qed.

Lemma ready_accepts (c : ApiCall) (w : World R) (m : ptr) :
  lifecycle c = false ->
  g_initialized (globals w) = true ->
  g_pManager (globals w) = Some m ->
  fst (api P c w) <> Done (Status MT4_ERROR_NOT_INITIALIZED).
Proof.
  intros Hc Hinit Hmgr. destruct (api P c w) as [o w'] eqn:H. open_world w. subst.
  destruct c; try discriminate Hc; exec H; inversion H; subst; clear H; cbn [fst];
    try discriminate;
    repeat match goal with
           | |- context [if ?b then _ else _] => destruct b
           end; discriminate.
Qed.

(** X30: once initialize has succeeded, no call is answered with
    NotInitialized for as long as the caller does not shut the session
    down: not the next call, and none in a history of calls without
    initialize and shutdown. *)
Theorem ready_session_accepts (w w1 : World R) (calls : list ApiCall) :
  api P Initialize w = (Done (Status MT4_SUCCESS), w1) ->
  forallb not_lifecycle calls = true ->
  Forall accepted (fst (run P calls w1)).
Proof.
  intros Hinit Hcalls.
  assert (Hready : g_initialized (globals w1) = true /\
                   exists m, g_pManager (globals w1) = Some m).
  { open_world w. exec Hinit; inversion Hinit; subst; clear Hinit;
      cbn [globals g_initialized g_pManager]; split; eauto. }
  clear Hinit. revert w1 Hready.
  induction calls as [| c rest IH]; intros w1 [Hflag [m Hmgr]]; cbn [run].
  - apply Forall_nil.
  - cbn [forallb] in Hcalls. apply andb_prop in Hcalls. destruct Hcalls as [Hc Hrest].
    unfold not_lifecycle in Hc. apply negb_true_iff in Hc.
    pose proof (ready_accepts c w1 m Hc Hflag Hmgr) as Hok.
    destruct (api P c w1) as [o w2] eqn:Hrun. cbn [fst] in Hok.
    destruct (session_frame c w1 w2 o Hc Hrun) as [Hm Hf].
    assert (Hnext : g_initialized (globals w2) = true /\
                    exists m', g_pManager (globals w2) = Some m').
    { split; [congruence | exists m; congruence]. }
    specialize (IH Hrest w2 Hnext).
    destruct o as [reply | e |];
      [ destruct (run P rest w2) as [log w3]; cbn [fst] in IH |- *;
        apply Forall_cons; [exact Hok | exact IH]
      | destruct (run P rest w2) as [log w3]; cbn [fst] in IH |- *;
        apply Forall_cons; [exact Hok | exact IH]
      | cbn [fst]; apply Forall_cons; [exact Hok | apply Forall_nil] ].
Qed.

End EmptyAnswers.

(** ** The extra properties on the scripted platform *)

(** A ping on a ready session. *)
Lemma only_lifecycle_moves_session_witness :
  let w := ready quiet in
  let w' := snd (api scripted ApiPing w) in
  g_pManager (globals w') = g_pManager (globals w) /\
  g_pFactory (globals w') = g_pFactory (globals w) /\
  g_initialized (globals w') = g_initialized (globals w) /\
  g_bypassMode (globals w') = g_bypassMode (globals w) /\
  g_mockConnected (globals w') = g_mockConnected (globals w).
Proof.
  apply (only_lifecycle_moves_session scripted ApiPing (ready quiet)
           (snd (api scripted ApiPing (ready quiet)))
           (fst (api scripted ApiPing (ready quiet))));
    [reflexivity | apply surjective_pairing].
Defined.

(** The first initialize of a process. *)
Lemma initialize_all_or_nothing_witness :
  (0 = MT4_SUCCESS /\
   g_pManager (globals (ready quiet)) <> None /\
   g_pFactory (globals (ready quiet)) <> None /\
   g_initialized (globals (ready quiet)) = true /\
   g_lastError (globals (ready quiet)) = empty) \/
  (0 = MT4_ERROR_INTERNAL /\
   g_pManager (globals (ready quiet)) = None /\
   g_pFactory (globals (ready quiet)) = None /\
   g_initialized (globals (ready quiet)) = false).
Proof.
  apply (initialize_all_or_nothing scripted (initial_world stale quiet) (ready quiet) 0);
    reflexivity.
Defined.

Lemma second_initialize_refused_witness :
  exists w2,
    api scripted Initialize (ready quiet)
    = (Done (Status MT4_ERROR_ALREADY_INITIALIZED), w2) /\
    trace w2 = trace (ready quiet) /\ remote w2 = remote (ready quiet) /\
    mem w2 = mem (ready quiet) /\
    g_pManager (globals w2) = g_pManager (globals (ready quiet)) /\
    g_pFactory (globals w2) = g_pFactory (globals (ready quiet)) /\
    g_initialized (globals w2) = true /\
    g_lastError (globals w2) = "Already initialized".
Proof.
  apply (second_initialize_refused scripted (initial_world stale quiet) (ready quiet)).
  reflexivity.
Defined.

(** The shutdown of a ready session. *)
Lemma shutdown_teardown_witness :
  trace (closed_again quiet)
  = (trace (ready quiet)
     ++ match g_pManager (globals (ready quiet)) with
        | Some m => [Ev (Mgr m Release)]
        | None => []
        end
     ++ match g_pFactory (globals (ready quiet)) with
        | Some f => [Ev (FactoryWinsockCleanup f); Ev (FactoryDelete f)]
        | None => []
        end
     ++ [Ev WSACleanup])%list /\
  g_pManager (globals (closed_again quiet)) = None /\
  g_pFactory (globals (closed_again quiet)) = None /\
  g_initialized (globals (closed_again quiet)) = false /\
  g_mockConnected (globals (closed_again quiet)) = false /\
  g_lastError (globals (closed_again quiet)) = empty /\
  mem (closed_again quiet) = mem (ready quiet).
Proof.
  apply (shutdown_teardown scripted (ready quiet) (closed_again quiet)).
  vm_compute. reflexivity.
Defined.

Lemma shutdown_twice_witness :
  let w2 := snd (api scripted Shutdown (closed_again quiet)) in
  trace w2 = (trace (closed_again quiet) ++ [Ev WSACleanup])%list /\
  globals w2 = globals (closed_again quiet) /\
  mem w2 = mem (closed_again quiet).
Proof.
  apply (shutdown_twice scripted (ready quiet) (closed_again quiet)
           (snd (api scripted Shutdown (closed_again quiet)))
           (fst (api scripted Shutdown (closed_again quiet))));
    [vm_compute; reflexivity | apply surjective_pairing].
Defined.

Lemma initialize_shutdown_round_trip_witness :
  globals (closed_again quiet) = initial_session /\
  mem (closed_again quiet) = mem (initial_world stale quiet).
Proof.
  apply (initialize_shutdown_round_trip scripted (initial_world stale quiet)
           (ready quiet) (closed_again quiet)); vm_compute; reflexivity.
Defined.

(** A ping whose connection check throws. *)
Lemma exceptions_are_contained_witness :
  let w := ready (with_IsConnected (Throw other_exception) quiet) in
  fst (api scripted ApiPing w) <> Throw other_exception /\
  fst (api scripted ApiPing w) = Done (Status MT4_ERROR_NOT_CONNECTED).
Proof.
  split; [| reflexivity].
  apply (exceptions_are_contained scripted ApiPing
           (ready (with_IsConnected (Throw other_exception) quiet))
           (snd (api scripted ApiPing
                   (ready (with_IsConnected (Throw other_exception) quiet))))
           (fst (api scripted ApiPing
                   (ready (with_IsConnected (Throw other_exception) quiet))))
           other_exception);
    [reflexivity | apply surjective_pairing].
Defined.

Lemma is_connected_is_safe_witness :
  let w := ready quiet in
  let result := MT4_IsConnected scripted w in
  (fst result = Done 1 \/ fst result = Done 0 \/ fst result = Fault) /\
  globals (snd result) = globals w /\ mem (snd result) = mem w /\
  (g_initialized (globals w) = false -> fst result = Done 0 /\ trace (snd result) = trace w).
Proof.
  apply (is_connected_is_safe scripted (ready quiet)
           (snd (MT4_IsConnected scripted (ready quiet)))
           (fst (MT4_IsConnected scripted (ready quiet)))).
  apply surjective_pairing.
Defined.

(** A ping without connection. *)
Lemma not_connected_is_reported_witness :
  fst (api scripted ApiPing (ready offline)) = Done (Status MT4_ERROR_NOT_CONNECTED) /\
  trace (snd (api scripted ApiPing (ready offline)))
  = (trace (ready offline) ++ [Ev (Mgr 2%positive IsConnected)])%list /\
  mem (snd (api scripted ApiPing (ready offline))) = mem (ready offline) /\
  g_lastError (globals (snd (api scripted ApiPing (ready offline)))) <> empty.
Proof.
  apply (not_connected_is_reported scripted ApiPing 2%positive (ready offline)
           (Done 0) offline);
    first [reflexivity | right; reflexivity | left; reflexivity].
Defined.

(** A login without a password. *)
Lemma arguments_checked_before_calls_witness :
  let result := api scripted (ApiLogin 5 None) (ready quiet) in
  fst result = Done (Status MT4_ERROR_INVALID_PARAMETER) /\
  trace (snd result) = trace (ready quiet) /\
  remote (snd result) = remote (ready quiet) /\
  mem (snd result) = mem (ready quiet) /\
  g_lastError (globals (snd result)) <> empty.
Proof.
  apply (arguments_checked_before_calls scripted (ApiLogin 5 None) 2%positive
           (ready quiet)); reflexivity.
Defined.

Lemma success_fits_buffer_witness :
  len (mem (snd (api scripted (serialize sample_order out 64) (ready quiet))) out) < 64.
Proof.
  apply (success_fits_buffer scripted sample_order out 64 (ready quiet)). reflexivity.
Defined.

(** Three records, a count of five and a limit of two. *)
Lemma json_array_spec_witness :
  json_array (fun n : nat => show_int (Z.of_nat n)) [1%nat; 2%nat; 3%nat] 5 2
  = Done ("[" ++ join "," (map (fun n : nat => show_int (Z.of_nat n))
                             (firstn (Z.to_nat (Z.min 5 2)) [1%nat; 2%nat; 3%nat]))
          ++ "]") /\
  json_array (fun n : nat => show_int (Z.of_nat n)) [1%nat; 2%nat; 3%nat] 5 2
  = Done "[1,2]".
Proof.
  split; [| reflexivity].
  apply (proj1 (json_array_spec (fun n : nat => show_int (Z.of_nat n))
                  [1%nat; 2%nat; 3%nat] 5 2)).
  cbn. lia.
Defined.


(** The same listing into three bytes: BufferTooSmall, the block freed. *)
Lemma block_freed_once_witness :
  exists calls : list Event,
    trace (snd (api scripted (serialize SerGetAllUsers out 3) (ready peopled)))
    = (trace (ready peopled) ++ calls)%list /\
    frees calls = 1%nat.
Proof.
  apply (block_freed_once scripted SerGetAllUsers out 3 (ready peopled)
           MT4_ERROR_BUFFER_TOO_SMALL);
    first [reflexivity | left; reflexivity].
Defined.

Lemma find_symbol_first_match_witness :
  find_symbol "EURUSD" [SymbolInfo.zero; eurusd] 0 2
  = Done (List.find (names "EURUSD") (firstn 2 [SymbolInfo.zero; eurusd])) /\
  find_symbol "EURUSD" [SymbolInfo.zero; eurusd] 0 2 = Done (Some eurusd).
Proof.
  split; [| reflexivity].
  apply (find_symbol_first_match "EURUSD" [SymbolInfo.zero; eurusd] 2). cbn. lia.
Defined.

Lemma quote_without_price_witness :
  let result := MT4_GetQuote scripted (Some "EURUSD") (Some out) 64 (ready priceless) in
  fst result = Done MT4_ERROR_INTERNAL /\
  g_lastError (globals (snd result)) = "No price data available for symbol" /\
  mem (snd result) = mem (ready priceless).
Proof.
  apply (quote_without_price scripted 2%positive "EURUSD" out 64 (ready priceless)
           1 0 0 2 [] None None SymbolInfo.zero priceless priceless priceless priceless);
    first [reflexivity | lia | discriminate | left; reflexivity].
Defined.

Lemma quote_prefers_updated_witness :
  let text := quote_json scripted "EURUSD" (SymbolInfo.bid eurusd) (SymbolInfo.ask eurusd)
                (SymbolInfo.spread eurusd) (SymbolInfo.digits eurusd)
                (SymbolInfo.lasttime eurusd) in
  let result := MT4_GetQuote scripted (Some "EURUSD") (Some out) 200 (ready updating) in
  fst result = Done MT4_SUCCESS /\
  mem (snd result) out = text /\
  g_lastError (globals (snd result)) = empty /\
  trace (snd result)
  = (trace (ready updating)
     ++ [Ev (Mgr 2%positive IsConnected); Ev (Mgr 2%positive (SymbolInfoUpdated 128))])%list.
Proof.
  apply (quote_prefers_updated scripted 2%positive "EURUSD" out 200 (ready updating)
           1 1 [eurusd] eurusd updating updating);
    first [reflexivity | discriminate | vm_compute; reflexivity].
Defined.

(** An update that names a new group. *)
Lemma update_keeps_account_witness :
  exists calls : list Event,
    trace (snd (MT4_UpdateUser scripted 7 (Some (q "group" ++ ":" ++ q "vip")) (ready quiet)))
    = (trace (ready quiet) ++ calls)%list /\
    Forall (same_account UserRecord.zero) (updated_users calls) /\
    created_users calls = [].
Proof.
  apply (update_keeps_account scripted 2%positive 7 (Some (q "group" ++ ":" ++ q "vip"))
           (ready quiet) 1 0 UserRecord.zero quiet quiet); reflexivity.
Defined.

Lemma delete_only_disables_witness :
  exists calls : list Event,
    trace (snd (MT4_DeleteUser scripted 7 (ready quiet)))
    = (trace (ready quiet) ++ calls)%list /\
    (updated_users calls = [] \/
     (0 = RET_OK (hdr scripted) /\
      updated_users calls = [UserRecord.set_enable 0 UserRecord.zero])).
Proof.
  apply (delete_only_disables scripted 2%positive 7 (ready quiet) 1 0 UserRecord.zero
           quiet quiet); reflexivity.
Defined.

(** Closing order 77 with no lots and no price of the caller's. *)
Lemma close_request_from_order_witness :
  exists calls : list Event,
    trace (snd (MT4_CloseTrade scripted 77 0%float 0%float (ready quiet)))
    = (trace (ready quiet) ++ calls)%list /\
    (transactions calls = [] \/
     (0 = RET_OK (hdr scripted) /\
      exists t, transactions calls = [t] /\
                close_request_of (hdr scripted) 77 0%float 0%float TradeRecord.zero t)).
Proof.
  apply (close_request_from_order scripted 2%positive 77 0%float 0%float (ready quiet)
           1 0 TradeRecord.zero quiet quiet); reflexivity.
Defined.

(** The login 4242 before a comma. *)
Lemma atoi_reads_show_int_witness :
  atoi (show_int 4242 ++ ",") = 4242 /\ atoi (show_int (-17) ++ "}") = -17.
Proof.
  split.
  - apply (atoi_reads_show_int 4242 ","); [vm_compute; split; discriminate | reflexivity].
  - apply (atoi_reads_show_int (-17) "}"); [vm_compute; split; discriminate | reflexivity].
Defined.

Lemma empty_listing_witness :
  writes_empty_array (ready quiet) out 64 [Ev (Mgr 2%positive (UsersRequest 0))]
    (MT4_GetAllUsers scripted (Some out) 64 (ready quiet)).
Proof.
  apply (proj1 (empty_listing scripted 2%positive out 64 (ready quiet)
                  eq_refl eq_refl eq_refl) (None, 0) quiet);
    [reflexivity | left; reflexivity].
Defined.

(** The account of the one-user manager. *)
Lemma user_info_from_first_record_witness :
  let result := MT4_GetUserInfo scripted 7 (Some out) 200 (ready peopled) in
  fst result = Done MT4_SUCCESS /\
  mem (snd result) out = user_info_json scripted alice /\
  g_lastError (globals (snd result)) = empty /\
  trace (snd result)
  = (trace (ready peopled)
     ++ [Ev (Mgr 2%positive (UserRecordsRequest [7] 0));
         Ev (Mgr 2%positive (MemFree (addr one_user)))])%list.
Proof.
  apply (proj2 (user_info_from_first_record scripted 2%positive 7 out 200 (ready peopled)
                  (Some one_user, 1) peopled eq_refl eq_refl eq_refl eq_refl)
           one_user alice [] tt peopled);
    first [reflexivity | vm_compute; reflexivity].
Defined.

Lemma ready_session_accepts_witness :
  Forall accepted
    (fst (run scripted [ApiPing; GetLastError; GetSymbols (Some out) 64] (ready quiet))).
Proof.
  apply (ready_session_accepts scripted (initial_world stale quiet) (ready quiet)
           [ApiPing; GetLastError; GetSymbols (Some out) 64]); reflexivity.
Defined.
